(** * fnkit: result / option containers and their combinators

    A shallow embedding of the Python package [fnkit] (option.py, some.py,
    noneType.py, result.py, ok.py, err.py, choice.py, chainedResult.py,
    multiiErrorResult.py, asyncResult.py and the free functions of
    __init__.py), followed by the properties of its combinators.

    Python objects are first-order data ([pyval]); a raised exception is the
    [Raise] outcome of a computation; user-supplied callables are state
    transformers over an arbitrary world [W] (whatever their closures can
    read and write).  Every invocation of a user callable goes through
    [call], which also bumps a ghost counter, so "the callback is not
    invoked" is a statement about that counter. *)

From Stdlib Require Import ZArith List String Bool Lia.
Import ListNotations.
Set Warnings "-register-all".
Local Open Scope string_scope.
Local Open Scope Z_scope.

(** ** Python values and exceptions *)

(** Instances of [Exception] (and its subclasses).  Signals that derive from
    [BaseException] only (KeyboardInterrupt, SystemExit) are not values of
    this type: no [except Exception] clause of the package sees them. *)
Inductive exn : Type :=
| TypeError (msg : string)
| ValueError (msg : string)
| IndexError (msg : string)
| UserException (cls : string) (msg : string).

Inductive pyval : Type :=
| VNone
| VBool (b : bool)
| VInt (n : Z)
| VStr (s : string)
| VExc (e : exn)
| VList (items : list pyval).

Definition exn_eqb (a b : exn) : bool :=
  match a, b with
  | TypeError m, TypeError m' => String.eqb m m'
  | ValueError m, ValueError m' => String.eqb m m'
  | IndexError m, IndexError m' => String.eqb m m'
  | UserException c m, UserException c' m' => String.eqb c c' && String.eqb m m'
  | _, _ => false
  end.

(** Python's [==] on the values of the model.  An exception object compares
    by identity in Python; the model identifies an exception object with its
    class and message. *)
Fixpoint py_eq (a b : pyval) {struct a} : bool :=
  match a, b with
  | VNone, VNone => true
  | VBool x, VBool y => Bool.eqb x y
  | VInt x, VInt y => Z.eqb x y
  | VStr x, VStr y => String.eqb x y
  | VExc x, VExc y => exn_eqb x y
  | VList xs, VList ys =>
      (fix go (l : list pyval) (r : list pyval) {struct l} : bool :=
         match l, r with
         | [], [] => true
         | x :: l', y :: r' => py_eq x y && go l' r'
         | _, _ => false
         end) xs ys
  | _, _ => false
  end.

(** [x is None] *)
Definition is_None (v : pyval) : bool :=
  match v with VNone => true | _ => false end.

(** [isinstance(x, Exception)] *)
Definition is_Exception (v : pyval) : bool :=
  match v with VExc _ => true | _ => false end.

(** The truth value of an object, as [if x:] takes it. *)
Definition truthy (v : pyval) : bool :=
  match v with
  | VNone => false
  | VBool b => b
  | VInt n => negb (Z.eqb n 0)
  | VStr s => negb (String.eqb s "")
  | VExc _ => true
  | VList items => match items with [] => false | _ :: _ => true end
  end.

(** ** Outcomes and the computation monad *)

Inductive outcome (A : Type) : Type :=
| Return (a : A)
| Raise (e : exn).
Arguments Return {A} a.
Arguments Raise {A} e.

Definition raises_TypeError {A} (o : outcome A) : bool :=
  match o with Raise (TypeError _) => true | _ => false end.

Definition raises_IndexError {A} (o : outcome A) : bool :=
  match o with Raise (IndexError _) => true | _ => false end.

Definition raises_ValueError {A} (o : outcome A) : bool :=
  match o with Raise (ValueError _) => true | _ => false end.

Definition returns {A} (o : outcome A) : bool :=
  match o with Return _ => true | Raise _ => false end.

Section Monad.
Context {W : Type}.

(** [calls] is ghost: the number of user callables invoked so far. *)
Record state : Type := mkState { calls : nat; world : W }.

Definition M (A : Type) : Type := state -> outcome A * state.

Definition ret {A} (a : A) : M A := fun s => (Return a, s).

Definition raise {A} (e : exn) : M A := fun s => (Raise e, s).

Definition lift {A} (o : outcome A) : M A := fun s => (o, s).

Definition bind {A B} (m : M A) (k : A -> M B) : M B :=
  fun s =>
    match m s with
    | (Return a, s') => k a s'
    | (Raise e, s') => (Raise e, s')
    end.

(** [try: m  except Exception as e: h e] *)
Definition try_except {A} (m : M A) (h : exn -> M A) : M A :=
  fun s =>
    match m s with
    | (Return a, s') => (Return a, s')
    | (Raise e, s') => h e s'
    end.

(** A user callable of one argument, and its invocation. *)
Definition pyfun (A B : Type) : Type := A -> W -> outcome B * W.

Definition call {A B} (f : pyfun A B) (x : A) : M B :=
  fun s =>
    let (o, w) := f x (world s) in
    (o, mkState (S (calls s)) w).

(** A user callable of two arguments. *)
Definition pyfun2 (A B C : Type) : Type := A -> B -> W -> outcome C * W.

Definition call2 {A B C} (f : pyfun2 A B C) (x : A) (y : B) : M C :=
  fun s =>
    let (o, w) := f x y (world s) in
    (o, mkState (S (calls s)) w).

(** An awaitable, and [await a]: drives it to completion. *)
Definition awaitable (A : Type) : Type := W -> outcome A * W.

Definition await {A} (a : awaitable A) : M A :=
  fun s =>
    let (o, w) := a (world s) in
    (o, mkState (calls s) w).

(** [lambda x: x] *)
Definition identity : pyfun pyval pyval := fun x w => (Return x, w).
End Monad.

Arguments state W : clear implicits.
Arguments M W A : clear implicits.
Arguments pyfun W A B : clear implicits.
Arguments pyfun2 W A B C : clear implicits.
Arguments awaitable W A : clear implicits.

Notation "x <- m ;; k" := (bind m (fun x => k))
  (at level 61, m at next level, right associativity).

(** Sequencing of effect-free steps that may still raise. *)
Definition obind {A B} (o : outcome A) (k : A -> outcome B) : outcome B :=
  match o with
  | Return a => k a
  | Raise e => Raise e
  end.

Notation "x <~ o ;; k" := (obind o (fun x => k))
  (at level 61, o at next level, right associativity).

(** ** [isinstance] *)

(** The second argument of [isinstance]: a class, a type variable created by
    [TypeVar], or a tuple of these. *)
Inductive pyclass : Type :=
| cls_Exception
| cls_list
| cls_int
| cls_str
| cls_fnkit_NoneType.

Inductive classinfo : Type :=
| CClass (c : pyclass)
| CTypeVar (name : string)
| CTuple (items : list classinfo).

(** No plain value is an instance of fnkit's own [NoneType] class. *)
Definition instance_of (v : pyval) (c : pyclass) : bool :=
  match c, v with
  | cls_Exception, VExc _ => true
  | cls_list, VList _ => true
  | cls_int, VInt _ => true
  | cls_int, VBool _ => true
  | cls_str, VStr _ => true
  | _, _ => false
  end.

Definition isinstance_arg2_msg : string :=
  "isinstance() arg 2 must be a type, a tuple of types, or a union".

(** A [TypeVar] object is not a class: the interpreter raises [TypeError].
    A tuple is tried left to right and stops at the first item that answers
    true or raises. *)
Fixpoint isinstance (v : pyval) (ci : classinfo) {struct ci} : outcome bool :=
  match ci with
  | CClass c => Return (instance_of v c)
  | CTypeVar _ => Raise (TypeError isinstance_arg2_msg)
  | CTuple items =>
      (fix any (l : list classinfo) : outcome bool :=
         match l with
         | [] => Return false
         | c :: l' =>
             match isinstance v c with
             | Return true => Return true
             | Return false => any l'
             | Raise e => Raise e
             end
         end) items
  end.

(** The module-level type variables [T = TypeVar('T')], [E], [R]. *)
Definition T : classinfo := CTypeVar "T".
Definition E : classinfo := CTypeVar "E".
Definition R : classinfo := CTypeVar "R".

(** [results[i]] on a list. *)
Definition subscript {A} (l : list A) (i : nat) : outcome A :=
  match nth_error l i with
  | Some x => Return x
  | None => Raise (IndexError "list index out of range")
  end.

(** ** option.py, some.py, noneType.py *)

Module Optional.

Inductive class : Type := cOption | cSome | cNoneType.

Definition class_eqb (a b : class) : bool :=
  match a, b with
  | cOption, cOption | cSome, cSome | cNoneType, cNoneType => true
  | _, _ => false
  end.

(** [issubclass(a, b)]: [Some] and [NoneType] both derive from [Option]. *)
Definition subclass (a b : class) : bool :=
  match b with
  | cOption => true
  | _ => class_eqb a b
  end.

Record t : Type := mk { cls : class; _value : pyval }.

(** [Option.__init__(self, value)]: the only initialiser of the three
    classes; [Some.__init__] forwards to it and [NoneType] inherits it. *)
Definition Option_init (c : class) (value : pyval) : t := mk c value.

Definition Option_new (value : pyval) : t := Option_init cOption value.

Definition Some_new (value : pyval) : t := Option_init cSome value.

(** [NoneType(...)]: the inherited initialiser wants exactly one
    positional argument. *)
Definition NoneType_new (args : list pyval) : outcome t :=
  match args with
  | [value] => Return (Option_init cNoneType value)
  | [] =>
      Raise (TypeError
        "Option.__init__() missing 1 required positional argument: 'value'")
  | _ =>
      Raise (TypeError "Option.__init__() takes 2 positional arguments")
  end.

Definition Option_is_some (self : t) : bool := negb (is_None (_value self)).
Definition Option_is_none (self : t) : bool := is_None (_value self).

Definition NoneType_is_some (self : t) : bool := false.
Definition NoneType_is_none (self : t) : bool := true.

(** Method resolution: [Some] inherits both tests, [NoneType] overrides. *)
Definition is_some (self : t) : bool :=
  match cls self with
  | cNoneType => NoneType_is_some self
  | _ => Option_is_some self
  end.

Definition is_none (self : t) : bool :=
  match cls self with
  | cNoneType => NoneType_is_none self
  | _ => Option_is_none self
  end.

Definition Option_unwrap (self : t) : outcome pyval :=
  if is_none self then Raise (ValueError "Cannot unwrap a None value")
  else Return (_value self).

Definition Some_unwrap (self : t) : outcome pyval := Return (_value self).

Definition NoneType_unwrap (self : t) : outcome pyval :=
  Raise (ValueError "Cannot unwrap a None value").

Definition unwrap (self : t) : outcome pyval :=
  match cls self with
  | cOption => Option_unwrap self
  | cSome => Some_unwrap self
  | cNoneType => NoneType_unwrap self
  end.

Definition get (self : t) (default : pyval) : pyval :=
  if is_some self then _value self else default.

Definition Option___eq__ (self other : t) : bool :=
  py_eq (_value self) (_value other).

Definition Some___eq__ (self other : t) : bool :=
  if subclass (cls other) cSome then py_eq (_value self) (_value other)
  else false.

Definition NoneType___eq__ (self other : t) : bool :=
  subclass (cls other) cNoneType.

Definition __eq__ (self other : t) : bool :=
  match cls self with
  | cOption => Option___eq__ self other
  | cSome => Some___eq__ self other
  | cNoneType => NoneType___eq__ self other
  end.

(** [a == b]: when the class of [b] is a proper subclass of the class of
    [a] (it then overrides [__eq__]), the right operand answers first. *)
Definition eq (a b : t) : bool :=
  if subclass (cls b) (cls a) && negb (class_eqb (cls a) (cls b))
  then __eq__ b a
  else __eq__ a b.

Section Methods.
Context {W : Type}.

Definition Option_map (self : t) (fn : pyfun W pyval pyval) : M W t :=
  if is_some self then
    v <- call fn (_value self) ;; ret (Option_new v)
  else ret (Option_new VNone).

Definition Some_map (self : t) (fn : pyfun W pyval pyval) : M W t :=
  v <- call fn (_value self) ;; ret (Some_new v).

Definition NoneType_map (self : t) (fn : pyfun W pyval pyval) : M W t :=
  ret self.

Definition map (self : t) (fn : pyfun W pyval pyval) : M W t :=
  match cls self with
  | cOption => Option_map self fn
  | cSome => Some_map self fn
  | cNoneType => NoneType_map self fn
  end.

(** [Option.filter], inherited by both subclasses. *)
Definition filter (self : t) (predicate : pyfun W pyval bool) : M W t :=
  if is_some self then
    b <- call predicate (_value self) ;;
    if b then ret self else ret (Option_new VNone)
  else ret (Option_new VNone).
End Methods.

(** [option(value)] of some.py. *)
Definition option (value : pyval) : outcome t :=
  if negb (is_None value) then Return (Some_new value)
  else NoneType_new [].


Definition Option___bool__ (self : t) : bool := is_some self.
Definition Some___bool__ (self : t) : bool := true.
Definition NoneType___bool__ (self : t) : bool := false.

(** [bool(self)] *)
Definition __bool__ (self : t) : bool :=
  match cls self with
  | cOption => Option___bool__ self
  | cSome => Some___bool__ self
  | cNoneType => NoneType___bool__ self
  end.

Section Chaining.
Context {W : Type}.

(** [Option.flat_map], [Option.and_then] and [Option.or_else]: no subclass
    overrides them. *)
Definition flat_map (self : t) (fn : pyfun W pyval t) : M W t :=
  if is_some self then call fn (_value self)
  else ret (Option_new VNone).

Definition and_then (self : t) (fn : pyfun W pyval t) : M W t :=
  if is_some self then call fn (_value self)
  else ret (Option_new VNone).

Definition or_else (self : t) (fn : pyfun W unit pyval) : M W pyval :=
  if is_some self then ret (_value self) else call fn tt.
End Chaining.

End Optional.

(** ** result.py, ok.py, err.py *)

Module Result.

Inductive class : Type := cResult | cOk | cErr.

Definition class_eqb (a b : class) : bool :=
  match a, b with
  | cResult, cResult | cOk, cOk | cErr, cErr => true
  | _, _ => false
  end.

Definition subclass (a b : class) : bool :=
  match b with
  | cResult => true
  | _ => class_eqb a b
  end.

Record t : Type := mk { cls : class; _value : pyval }.

(** [Result.__init__(self, value)]; [Ok.__init__] and [Err.__init__] only
    forward to it. *)
Definition Result_init (c : class) (value : pyval) : outcome t :=
  b <~ isinstance value (CTuple [T; E; CClass cls_fnkit_NoneType]) ;;
  if b then Return (mk c value)
  else Raise (TypeError "Invalid type for Result, must be T, E, or NoneType.").

Definition Result_new (value : pyval) : outcome t := Result_init cResult value.
Definition Ok_new (value : pyval) : outcome t := Result_init cOk value.
Definition Err_new (error : pyval) : outcome t := Result_init cErr error.

(** Neither subclass overrides the two variant tests. *)
Definition is_ok (self : t) : outcome bool := isinstance (_value self) T.
Definition is_err (self : t) : outcome bool := isinstance (_value self) E.

Definition Result_unwrap (self : t) : outcome pyval :=
  b <~ is_err self ;;
  if b then Raise (ValueError "Cannot unwrap an error value.")
  else Return (_value self).

Definition Ok_unwrap (self : t) : outcome pyval := Return (_value self).

Definition Err_unwrap (self : t) : outcome pyval :=
  Raise (ValueError "Cannot unwrap an error value.").

Definition expect (self : t) (msg : string) : outcome pyval :=
  b <~ is_err self ;;
  if b then Raise (ValueError msg) else Return (_value self).

Definition get (self : t) (default : pyval) : outcome pyval :=
  b <~ is_ok self ;;
  if b then Return (_value self) else Return default.

Definition Result___eq__ (self other : t) : bool :=
  py_eq (_value self) (_value other).

Definition Ok___eq__ (self other : t) : bool :=
  if subclass (cls other) cOk then py_eq (_value self) (_value other)
  else false.

Definition Err___eq__ (self other : t) : bool :=
  if subclass (cls other) cErr then py_eq (_value self) (_value other)
  else false.

Section Methods.
Context {W : Type}.

Definition Result_map (self : t) (fn : pyfun W pyval pyval) : M W t :=
  b <- lift (is_ok self) ;;
  if b then v <- call fn (_value self) ;; lift (Result_new v)
  else ret self.

Definition Result_map_err (self : t) (fn : pyfun W pyval pyval) : M W t :=
  b <- lift (is_err self) ;;
  if b then v <- call fn (_value self) ;; lift (Result_new v)
  else ret self.

Definition or_else (self : t) (fn : pyfun W unit pyval) : M W pyval :=
  b <- lift (is_ok self) ;;
  if b then ret (_value self) else call fn tt.

Definition Ok_map (self : t) (fn : pyfun W pyval pyval) : M W t :=
  v <- call fn (_value self) ;; lift (Ok_new v).

Definition Ok_map_err (self : t) (fn : pyfun W pyval pyval) : M W t :=
  ret self.

Definition Err_map (self : t) (fn : pyfun W pyval pyval) : M W t :=
  ret self.

Definition Err_map_err (self : t) (fn : pyfun W pyval pyval) : M W t :=
  v <- call fn (_value self) ;; lift (Err_new v).
End Methods.

End Result.

(** ** choice.py *)

Module Choice.

Record t : Type := mk { _value : pyval }.

Definition Choice_new (value : pyval) : t := mk value.

Definition is_some (self : t) : outcome bool := isinstance (_value self) T.
Definition is_err (self : t) : outcome bool := isinstance (_value self) E.
Definition is_none (self : t) : bool := is_None (_value self).

Definition unwrap (self : t) : outcome pyval :=
  b <~ is_err self ;;
  if b then Raise (ValueError "Cannot unwrap an error value.")
  else if is_none self then Raise (ValueError "Cannot unwrap a None value")
  else Return (_value self).

Definition get (self : t) (default : pyval) : outcome pyval :=
  b <~ is_some self ;;
  if b then Return (_value self) else Return default.

Section Methods.
Context {W : Type}.

Definition map (self : t) (fn : pyfun W pyval pyval) : M W t :=
  b <- lift (is_some self) ;;
  if b then v <- call fn (_value self) ;; ret (Choice_new v)
  else ret self.

Definition map_err (self : t) (fn : pyfun W pyval pyval) : M W t :=
  b <- lift (is_err self) ;;
  if b then v <- call fn (_value self) ;; ret (Choice_new v)
  else ret self.

Definition or_else (self : t) (fn : pyfun W unit pyval) : M W pyval :=
  b <- lift (is_some self) ;;
  if b then ret (_value self) else call fn tt.
End Methods.

Definition expect (self : t) (msg : string) : outcome pyval :=
  if is_none self then Raise (ValueError msg)
  else
    b <~ is_err self ;;
    if b then Raise (ValueError msg) else Return (_value self).

Section Chaining.
Context {W : Type}.

Definition and_then (self : t) (fn : pyfun W pyval t) : M W t :=
  b <- lift (is_some self) ;;
  if b then call fn (_value self) else ret (Choice_new VNone).
End Chaining.

End Choice.

(** ** chainedResult.py *)

Module ChainedResult.

Record t : Type := mk { value : pyval; errors : list pyval }.

(** [ChainedResult(value, errors=None)] *)
Definition init (value : pyval) (errors : option (list pyval)) : t :=
  mk value (match errors with Some l => l | None => [] end).

Section Methods.
Context {W : Type} (py_str : pyval -> string).

Definition chain (self : t) (func : pyfun W pyval t) : M W t :=
  if is_Exception (value self) then
    ret (init (value self) (Some (errors self)))
  else
    try_except
      (call func (value self))
      (fun e => ret (init (VExc e) (Some (errors self ++ [VExc e])%list))).

Definition map (self : t) (func : pyfun W pyval pyval) : M W t :=
  if is_Exception (value self) then
    ret (init (value self) (Some (errors self)))
  else
    try_except
      (v <- call func (value self) ;; ret (init v (Some (errors self))))
      (fun e => ret (init (VExc e) (Some (errors self ++ [VExc e])%list))).

Definition map_err (self : t) (func : pyfun W pyval pyval) : M W t :=
  if is_Exception (value self) then
    v <- call func (value self) ;; ret (init v (Some (errors self)))
  else ret self.

Definition unwrap (self : t) : outcome pyval :=
  if is_Exception (value self) then
    Raise (ValueError
             ("Result contains errors: " ++ py_str (VList (errors self))))
  else Return (value self).

Definition or_else (self : t) (fn : pyfun W unit t) : M W t :=
  if is_Exception (value self) then call fn tt
  else ret self.

Definition expect (self : t) (msg : string) : outcome pyval :=
  if is_Exception (value self) then
    Raise (ValueError
             (msg ++ " | Errors: " ++ py_str (VList (errors self))))
  else Return (value self).
End Methods.

End ChainedResult.

(** ** multiiErrorResult.py *)

Module MultiErrorResult.

Record t : Type := mk { _value : pyval; _errors : list pyval }.

(** [MultiErrorResult(value, errors=None)] *)
Definition init (value : pyval) (errors : option (list pyval)) : t :=
  mk value (match errors with Some l => l | None => [] end).

(** [if self._errors:] *)
Definition has_errors (self : t) : bool :=
  match _errors self with [] => false | _ :: _ => true end.

(** [add_error] appends in place: the result is the object afterwards. *)
Definition add_error (self : t) (error : pyval) : t :=
  mk (_value self) (_errors self ++ [error])%list.

Definition get_errors (self : t) : list pyval := _errors self.


Section Methods.
Context {W : Type} (py_str : pyval -> string).

(** The outcome of the call and the object as the call leaves it. *)
Definition unwrap (self : t) : outcome pyval * t :=
  if has_errors self then
    (Raise (ValueError
              ("Result contains errors: " ++ py_str (VList (_errors self)))),
     self)
  else (Return (_value self), self).

Definition map (self : t) (func : pyfun W pyval pyval) : M W t :=
  if has_errors self then
    ret (init (VList (_errors self)) (Some (_errors self)))
  else
    try_except
      (v <- call func (_value self) ;; ret (init v (Some [])))
      (fun e =>
         ret (init (VList ([VExc e] ++ _errors self)%list)
                   (Some (_errors self)))).

Definition map_err (self : t) (func : pyfun W pyval pyval) : M W t :=
  if has_errors self then
    v <- call func (VList (_errors self)) ;; ret (init v (Some []))
  else ret self.

Definition or_else (self : t) (fn : pyfun W unit t) : M W t :=
  if has_errors self then call fn tt
  else ret self.
End Methods.

End MultiErrorResult.

(** ** asyncResult.py *)

Module AsyncResult.

Section Methods.
Context {W : Type}.

(** [computation] is invoked ([self.computation()]) and what it returns
    is awaited. *)
Record t : Type := mk {
  computation : pyfun W unit (awaitable W pyval);
  value : pyval;
  error : pyval
}.

(** [AsyncResult(computation, error=None)] *)
Definition init (computation : pyfun W unit (awaitable W pyval))
           (error : option pyval) : t :=
  mk computation VNone (match error with Some e => e | None => VNone end).

(** [Await] assigns to [self.value] or [self.error]: the result is the
    outcome, the object afterwards and the state afterwards. *)
Definition Await (self : t) (s : state W) : outcome pyval * t * state W :=
  match (a <- call (computation self) tt ;; await a) s with
  | (Return v, s') =>
      (Return v, mk (computation self) v (error self), s')
  | (Raise e, s') =>
      (Raise e, mk (computation self) (value self) (VExc e), s')
  end.
End Methods.

Section Inspection.
Context {W : Type} (py_str : pyval -> string).

Definition unwrap (self : @t W) : outcome pyval :=
  if truthy (error self) then
    Raise (ValueError
             ("Computation failed with error: " ++ py_str (error self)))
  else Return (value self).

Definition expect (self : @t W) (msg : string) : outcome pyval :=
  if truthy (error self) then
    Raise (ValueError (msg ++ " | Error: " ++ py_str (error self)))
  else Return (value self).

Definition or_else (self : @t W) (fn : pyfun W unit (@t W)) : M W (@t W) :=
  if truthy (error self) then call fn tt
  else ret self.
End Inspection.

Arguments t W : clear implicits.

End AsyncResult.

(** ** The free functions of __init__.py *)

Module Fnkit.

(** [[x for x in l if cond(x)]] with a condition that may raise. *)
Fixpoint select {A} (cond : A -> outcome bool) (l : list A)
  : outcome (list A) :=
  match l with
  | [] => Return []
  | x :: l' =>
      b <~ cond x ;;
      rest <~ select cond l' ;;
      Return (if b then x :: rest else rest)
  end.

Definition merge (results : list pyval) : outcome MultiErrorResult.t :=
  errors <~ select (fun result => isinstance result E) results ;;
  Return (MultiErrorResult.init (VList errors) None).

Section Callbacks.
Context {W : Type}.

(** The same comprehension when the condition runs user code. *)
Fixpoint select_m {A} (cond : A -> M W bool) (l : list A)
  : M W (list A) :=
  match l with
  | [] => ret []
  | x :: l' =>
      b <- cond x ;;
      rest <- select_m cond l' ;;
      ret (if b then x :: rest else rest)
  end.

(** [isinstance(result, C) and predicate(result)] *)
Definition isinstance_and (C : classinfo) (predicate : pyfun W pyval bool)
           (result : pyval) : M W bool :=
  b <- lift (isinstance result C) ;;
  if b then call predicate result else ret false.

Definition filter_results (results : list pyval)
           (predicate : pyfun W pyval bool) : M W (list pyval) :=
  select_m (isinstance_and T predicate) results.

Definition filter_errors (results : list pyval)
           (predicate : pyfun W pyval bool) : M W (list pyval) :=
  select_m (isinstance_and E predicate) results.

Definition reduce (results : list pyval)
           (func : pyfun2 W pyval pyval pyval) : M W pyval :=
  if (1 <? List.length results)%nat then
    a <- lift (subscript results 0) ;;
    b <- lift (subscript results 1) ;;
    call2 func a b
  else lift (subscript results 0).

Definition reduce_error (results : list pyval)
           (func : pyfun2 W pyval pyval pyval) : M W pyval :=
  if (1 <? List.length results)%nat then
    a <- lift (subscript results 0) ;;
    b <- lift (subscript results 1) ;;
    call2 func a b
  else lift (subscript results 0).

(** The loop of [reduce_async]:
    [for result in ...: reduced = func(reduced, await result)]. *)
Fixpoint reduce_loop (func : pyfun2 W pyval pyval pyval)
         (reduced : pyval) (rest : list (awaitable W pyval)) : M W pyval :=
  match rest with
  | [] => ret reduced
  | result :: rest' =>
      x <- await result ;;
      reduced' <- call2 func reduced x ;;
      reduce_loop func reduced' rest'
  end.

(** The coroutine [reduce_result] that [reduce_async] wraps. *)
Definition reduce_result (results : list (awaitable W pyval))
           (func : pyfun2 W pyval pyval pyval) : M W pyval :=
  first <- lift (subscript results 0) ;;
  reduced <- await first ;;
  reduce_loop func reduced (List.tl results).

(** An awaitable that is already resolved to [v]. *)
Definition ready (v : pyval) : awaitable W pyval := fun w => (Return v, w).

(** The left fold of a binary callable over values, seeded with [acc]. *)
Fixpoint fold_calls (func : pyfun2 W pyval pyval pyval)
         (acc : pyval) (l : list pyval) : M W pyval :=
  match l with
  | [] => ret acc
  | x :: l' => acc' <- call2 func acc x ;; fold_calls func acc' l'
  end.
End Callbacks.

Section Dispatch.
Context {W : Type}.

Definition chain (result : pyval) (func : pyfun W pyval ChainedResult.t)
  : M W ChainedResult.t :=
  b <- lift (isinstance result E) ;;
  if b then ret (ChainedResult.init result None)
  else call func result.

Definition map_value (result : pyval) (func : pyfun W pyval pyval)
  : M W ChainedResult.t :=
  b <- lift (isinstance result T) ;;
  if b then v <- call func result ;; ret (ChainedResult.init v None)
  else ret (ChainedResult.init result None).

Definition map_error (result : pyval) (func : pyfun W pyval pyval)
  : M W MultiErrorResult.t :=
  b <- lift (isinstance result E) ;;
  if b then v <- call func result ;; ret (MultiErrorResult.init v None)
  else ret (MultiErrorResult.init result None).

Definition or_else (result : pyval) (fn : pyfun W unit ChainedResult.t)
  : M W ChainedResult.t :=
  b <- lift (isinstance result E) ;;
  if b then call fn tt
  else ret (ChainedResult.init result None).

Definition handle_error (result : pyval) (handler : pyfun W pyval pyval)
  : M W pyval :=
  b <- lift (isinstance result E) ;;
  if b then call handler result else ret result.

(** The comprehension [[await r for r in results]] that is the body of the
    coroutines of [sequence] and [sequence_async]. *)
Fixpoint sequence_result (results : list (awaitable W pyval))
  : M W (list pyval) :=
  match results with
  | [] => ret []
  | r :: rest =>
      v <- await r ;;
      vs <- sequence_result rest ;;
      ret (v :: vs)
  end.
End Dispatch.

Definition from_result (result : pyval) : outcome ChainedResult.t :=
  b <~ isinstance result E ;;
  if b then Return (ChainedResult.init result None)
  else Return (ChainedResult.init result None).

Definition from_error (result : pyval) : outcome MultiErrorResult.t :=
  b <~ isinstance result E ;;
  if b then Return (MultiErrorResult.init (VList [result]) None)
  else Return (MultiErrorResult.init (VList [result]) None).

Definition to_result (result : pyval)
  : outcome (MultiErrorResult.t + ChainedResult.t) :=
  b <~ isinstance result E ;;
  if b then Return (inl (MultiErrorResult.init result None))
  else Return (inr (ChainedResult.init result None)).

(** [add_error(result, error)]: [isinstance(result, list)] is a test against
    a real class; on a list the error is appended to it. *)
Definition add_error (result : pyval) (error : pyval) : MultiErrorResult.t :=
  match result with
  | VList items => MultiErrorResult.init (VList (items ++ [error])%list) None
  | _ => MultiErrorResult.init (VList [error]) None
  end.

End Fnkit.

(** ** examples.py *)

Module Examples.

Section Functions.
Context {W : Type}.

Definition chain (result : ChainedResult.t)
           (func : pyfun W ChainedResult.t ChainedResult.t)
  : M W ChainedResult.t :=
  call func result.

Definition map_value (result : ChainedResult.t) (func : pyfun W pyval pyval)
  : M W ChainedResult.t :=
  if negb (is_None (ChainedResult.value result)) then
    v <- call func (ChainedResult.value result) ;;
    ret (ChainedResult.init v None)
  else ret result.

Definition or_else (result : ChainedResult.t)
           (fallback : pyfun W ChainedResult.t ChainedResult.t)
  : M W ChainedResult.t :=
  if is_None (ChainedResult.value result)
     && truthy (VList (ChainedResult.errors result))
  then call fallback result
  else ret result.
End Functions.

End Examples.

(** ** Concrete callables used to evaluate the code *)

(** [lambda a, b: a - b] on integers. *)
Definition int_sub {W} : pyfun2 W pyval pyval pyval :=
  fun a b w =>
    match a, b with
    | VInt x, VInt y => (Return (VInt (x - y)), w)
    | _, _ => (Raise (TypeError "unsupported operand type(s) for -"), w)
    end.

(** A callable that always raises [e]. *)
Definition always_raise {W A B} (e : exn) : pyfun W A B :=
  fun _ w => (Raise e, w).

(** A callable that always returns [b]. *)
Definition const_fun {W A B} (b : B) : pyfun W A B :=
  fun _ w => (Return b, w).

(** [async def tick(): n += 1; return n] over a world that is the counter. *)
Definition tick : pyfun Z unit (awaitable Z pyval) :=
  fun _ w => (Return (fun w' => (Return (VInt (w' + 1)), w' + 1)), w).

Definition s0 {W} (w : W) : state W := mkState 0 w.

(** * Properties *)

(** ** The monad *)

Section MonadFacts.
Context {W : Type}.

Lemma bind_ret_l {A B} (a : A) (k : A -> M W B) (s : state W) :
  (x <- ret a ;; k x) s = k a s.
Proof. reflexivity. Qed.

Lemma bind_lift_raise {A B} (e : exn) (k : A -> M W B) (s : state W) :
  (x <- lift (Raise e) ;; k x) s = (Raise e, s).
Proof. reflexivity. Qed.

Lemma call_unfold {A B} (f : pyfun W A B) (x : A) (s : state W) :
  call f x s = (fst (f x (world s)), mkState (S (calls s)) (snd (f x (world s)))).
Proof. unfold call. destruct (f x (world s)); reflexivity. Qed.

Lemma call_eq {A B} (f : pyfun W A B) (x : A) (s : state W) o w' :
  f x (world s) = (o, w') ->
  call f x s = (o, mkState (S (calls s)) w').
Proof. intros H. unfold call. rewrite H. reflexivity. Qed.

Lemma call_counts {A B} (f : pyfun W A B) (x : A) (s : state W) :
  calls (snd (call f x s)) = S (calls s).
Proof. rewrite call_unfold. reflexivity. Qed.

Lemma call2_eq {A B C} (f : pyfun2 W A B C) (x : A) (y : B) (s : state W) o w' :
  f x y (world s) = (o, w') ->
  call2 f x y s = (o, mkState (S (calls s)) w').
Proof. intros H. unfold call2. rewrite H. reflexivity. Qed.

Lemma state_eta (s : state W) : mkState (calls s) (world s) = s.
Proof. destruct s; reflexivity. Qed.
End MonadFacts.

(** ** Values *)

Lemma exn_eqb_refl (e : exn) : exn_eqb e e = true.
Proof.
  destruct e; simpl; rewrite ?String.eqb_refl; reflexivity.
Qed.

(** [==] is reflexive on the values of the model (which has no NaN). *)
Lemma py_eq_refl (v : pyval) : py_eq v v = true.
Proof.
  revert v. fix py_eq_refl 1. intros v.
  destruct v as [ | b | n | s | e | items ]; simpl.
  - reflexivity.
  - apply Bool.eqb_reflx.
  - apply Z.eqb_refl.
  - apply String.eqb_refl.
  - apply exn_eqb_refl.
  - induction items as [ | x l IH ].
    + reflexivity.
    + rewrite (py_eq_refl x). exact IH.
Qed.

(** ** Type variables in [isinstance] *)

Lemma isinstance_typevar (v : pyval) (name : string) :
  isinstance v (CTypeVar name) = Raise (TypeError isinstance_arg2_msg).
Proof. reflexivity. Qed.

Lemma isinstance_tuple_typevar_first (v : pyval) (name : string) rest :
  isinstance v (CTuple (CTypeVar name :: rest))
  = Raise (TypeError isinstance_arg2_msg).
Proof. reflexivity. Qed.

Lemma Result_init_raises (c : Result.class) (v : pyval) :
  Result.Result_init c v = Raise (TypeError isinstance_arg2_msg).
Proof. reflexivity. Qed.

Lemma select_head_raises {A} (cond : A -> outcome bool) x l e :
  cond x = Raise e -> Fnkit.select cond (x :: l) = Raise e.
Proof. intros H. simpl. rewrite H. reflexivity. Qed.

Lemma merge_nonempty_raises (x : pyval) (xs : list pyval) :
  Fnkit.merge (x :: xs) = Raise (TypeError isinstance_arg2_msg).
Proof.
  unfold Fnkit.merge.
  rewrite (select_head_raises _ x xs (TypeError isinstance_arg2_msg)).
  - reflexivity.
  - apply isinstance_typevar.
Qed.

(** On the empty list no membership test runs; the collected list lands in
    the value slot, the error sequence is the default empty one. *)
Lemma merge_nil :
  Fnkit.merge [] = Return (MultiErrorResult.mk (VList []) []).
Proof. reflexivity. Qed.

Section SelectFacts.
Context {W : Type}.

Lemma select_m_head_raises {A} (cond : A -> M W bool) x l e (s s' : state W) :
  cond x s = (Raise e, s') ->
  Fnkit.select_m cond (x :: l) s = (Raise e, s').
Proof. intros H. simpl. unfold bind. rewrite H. reflexivity. Qed.

Lemma isinstance_and_typevar name (p : pyfun W pyval bool) x (s : state W) :
  Fnkit.isinstance_and (CTypeVar name) p x s
  = (Raise (TypeError isinstance_arg2_msg), s).
Proof. reflexivity. Qed.
End SelectFacts.

(** ** [reduce] *)

Section ReduceFacts.
Context {W : Type}.
Variable func : pyfun2 W pyval pyval pyval.

Lemma reduce_nil (s : state W) :
  Fnkit.reduce [] func s
  = (Raise (IndexError "list index out of range"), s).
Proof. reflexivity. Qed.

Lemma reduce_singleton (x : pyval) (s : state W) :
  Fnkit.reduce [x] func s = (Return x, s).
Proof. reflexivity. Qed.

(** From two elements on, only the first two are ever looked at. *)
Lemma reduce_two_or_more (a b : pyval) rest (s : state W) :
  Fnkit.reduce (a :: b :: rest) func s = call2 func a b s.
Proof.
  unfold Fnkit.reduce. simpl.
  unfold bind, lift. reflexivity.
Qed.

Lemma reduce_loop_ready (acc : pyval) (l : list pyval) (s : state W) :
  Fnkit.reduce_loop func acc (List.map Fnkit.ready l) s
  = Fnkit.fold_calls func acc l s.
Proof.
  revert acc s. induction l as [ | x l IH ]; intros acc s.
  - reflexivity.
  - simpl. unfold bind at 1. unfold await, Fnkit.ready at 1. simpl.
    rewrite state_eta. unfold bind.
    destruct (call2 func acc x s) as [[acc' | e] s1].
    + apply IH.
    + reflexivity.
Qed.

(** The coroutine of [reduce_async] does fold over all the elements. *)
Lemma reduce_result_folds (x : pyval) (l : list pyval) (s : state W) :
  Fnkit.reduce_result (List.map Fnkit.ready (x :: l)) func s
  = Fnkit.fold_calls func x l s.
Proof.
  unfold Fnkit.reduce_result. simpl.
  unfold bind at 1. unfold lift. unfold bind at 1.
  unfold await, Fnkit.ready at 1. simpl. rewrite state_eta.
  apply reduce_loop_ready.
Qed.
End ReduceFacts.

(** ** ChainedResult *)

(** C1. [chain] on a ChainedResult whose current slot is an error does not
    invoke the function (the state, ghost call counter included, is left as
    it was) and returns a ChainedResult with the same current error and the
    same accumulated error sequence.  When the current slot is a success and
    the function raises, the failure is caught: the result is a
    ChainedResult whose current slot is that failure and whose error
    sequence is the old one with the failure appended last. *)
Theorem chain_short_circuit_and_catch
  {W : Type} (c : ChainedResult.t) (f : pyfun W pyval ChainedResult.t)
  (s : state W) :
  (is_Exception (ChainedResult.value c) = true ->
   exists r,
     ChainedResult.chain c f s = (Return r, s)
     /\ ChainedResult.value r = ChainedResult.value c
     /\ ChainedResult.errors r = ChainedResult.errors c)
  /\
  (forall e w',
     is_Exception (ChainedResult.value c) = false ->
     f (ChainedResult.value c) (world s) = (Raise e, w') ->
     exists r,
       ChainedResult.chain c f s = (Return r, mkState (S (calls s)) w')
       /\ ChainedResult.value r = VExc e
       /\ is_Exception (ChainedResult.value r) = true
       /\ ChainedResult.errors r = (ChainedResult.errors c ++ [VExc e])%list
       /\ List.last (ChainedResult.errors r) VNone = VExc e).
Proof.
  split.
  - intros Herr. unfold ChainedResult.chain. rewrite Herr.
    eexists. split; [ reflexivity | split; reflexivity ].
  - intros e w' Hok Hf. unfold ChainedResult.chain. rewrite Hok.
    unfold try_except. rewrite (call_eq _ _ _ _ _ Hf).
    eexists. split; [ reflexivity | ]. simpl.
    repeat split. apply List.last_last.
Qed.

Lemma chain_short_circuit_and_catch_witness :
  (exists r,
     ChainedResult.chain
       (ChainedResult.mk (VExc (ValueError "bad")) [VExc (ValueError "bad")])
       (always_raise (TypeError "never called")) (s0 tt)
     = (Return r, s0 tt)
     /\ ChainedResult.value r = VExc (ValueError "bad")
     /\ ChainedResult.errors r = [VExc (ValueError "bad")])
  /\
  (exists r,
     ChainedResult.chain
       (ChainedResult.mk (VInt 1) [VExc (ValueError "old")])
       (always_raise (ValueError "boom")) (s0 tt)
     = (Return r, mkState 1 tt)
     /\ ChainedResult.value r = VExc (ValueError "boom")
     /\ is_Exception (ChainedResult.value r) = true
     /\ ChainedResult.errors r
        = ([VExc (ValueError "old")] ++ [VExc (ValueError "boom")])%list
     /\ List.last (ChainedResult.errors r) VNone = VExc (ValueError "boom")).
Proof.
  split.
  - apply (proj1 (chain_short_circuit_and_catch
                    (ChainedResult.mk (VExc (ValueError "bad"))
                                      [VExc (ValueError "bad")])
                    (always_raise (TypeError "never called")) (s0 tt))).
    reflexivity.
  - apply (proj2 (chain_short_circuit_and_catch
                    (ChainedResult.mk (VInt 1) [VExc (ValueError "old")])
                    (always_raise (ValueError "boom")) (s0 tt))
                 (ValueError "boom") tt); reflexivity.
Defined.

(** C5, as the code has it.  [or_else] invokes the fallback (once, and
    returns whatever it returns or raises) exactly when the current slot is
    an error, whatever the accumulated error sequence holds; when the
    current slot is a success the fallback is not invoked and the
    ChainedResult itself is returned. *)
Theorem or_else_runs_fallback_iff_error_slot
  {W : Type} (c : ChainedResult.t) (fn : pyfun W unit ChainedResult.t)
  (s : state W) :
  (is_Exception (ChainedResult.value c) = true ->
   ChainedResult.or_else c fn s
   = (fst (fn tt (world s)), mkState (S (calls s)) (snd (fn tt (world s)))))
  /\
  (is_Exception (ChainedResult.value c) = false ->
   ChainedResult.or_else c fn s = (Return c, s))
  /\
  (calls (snd (ChainedResult.or_else c fn s)) = S (calls s)
   <-> is_Exception (ChainedResult.value c) = true).
Proof.
  unfold ChainedResult.or_else.
  destruct (is_Exception (ChainedResult.value c)) eqn:Hv.
  - split; [ | split ].
    + intros _. apply call_unfold.
    + discriminate.
    + split; [ reflexivity | intros _; apply call_counts ].
  - split; [ | split ].
    + discriminate.
    + reflexivity.
    + split; [ | discriminate ].
      simpl. intros H. lia.
Qed.

Lemma or_else_runs_fallback_iff_error_slot_witness :
  ChainedResult.or_else
    (ChainedResult.mk (VExc (ValueError "bad")) [])
    (const_fun (ChainedResult.mk (VInt 0) [])) (s0 tt)
  = (Return (ChainedResult.mk (VInt 0) []), mkState 1 tt)
  /\
  ChainedResult.or_else
    (ChainedResult.mk (VInt 7) [VExc (ValueError "old")])
    (const_fun (ChainedResult.mk (VInt 0) [])) (s0 tt)
  = (Return (ChainedResult.mk (VInt 7) [VExc (ValueError "old")]), s0 tt).
Proof.
  split.
  - apply (proj1 (or_else_runs_fallback_iff_error_slot
                    (ChainedResult.mk (VExc (ValueError "bad")) [])
                    (const_fun (ChainedResult.mk (VInt 0) [])) (s0 tt))).
    reflexivity.
  - apply (proj1 (proj2 (or_else_runs_fallback_iff_error_slot
                    (ChainedResult.mk (VInt 7) [VExc (ValueError "old")])
                    (const_fun (ChainedResult.mk (VInt 0) [])) (s0 tt)))).
    reflexivity.
Defined.

(** C5 as stated fails: with the current slot an error and an empty error
    sequence, the claim has the fallback skipped and the ChainedResult
    returned, yet [ChainedResult(ValueError("bad")).or_else(fn)] runs [fn]. *)
Lemma or_else_empty_history_counterexample :
  ~ (forall (W : Type) (c : ChainedResult.t)
            (fn : pyfun W unit ChainedResult.t) (s : state W),
        is_Exception (ChainedResult.value c) = true ->
        ChainedResult.errors c = [] ->
        ChainedResult.or_else c fn s = (Return c, s)).
Proof.
  intros H.
  specialize (H unit
                (ChainedResult.init (VExc (ValueError "bad")) None)
                (const_fun (ChainedResult.init (VInt 0) None))
                (s0 tt) eq_refl eq_refl).
  discriminate H.
Qed.

(** ** Failures raised by a transform *)

(** C2 as stated fails: [Option(1).map(f)] with an [f] that raises has no
    handler around the call, so the failure leaves [map]. *)
Lemma map_failure_escapes_counterexample :
  ~ (forall (W : Type) (o : Optional.t) (f : pyfun W pyval pyval)
            (s : state W) (e : exn) (w' : W),
        Optional.is_some o = true ->
        f (Optional._value o) (world s) = (Raise e, w') ->
        returns (fst (Optional.map o f s)) = true).
Proof.
  intros H.
  specialize (H unit (Optional.Option_new (VInt 1))
                (always_raise (ValueError "boom")) (s0 tt)
                (ValueError "boom") tt eq_refl eq_refl).
  discriminate H.
Qed.

(** C2, as the code has it.  Let the transform raise [e] on the value held.
    [ChainedResult.map] and [ChainedResult.chain] (current slot a success)
    catch it and return a ChainedResult in error state: current slot [e],
    error sequence extended by [e].  [MultiErrorResult.map] (no accumulated
    error) catches it too and returns normally, the value slot holding the
    list [[e]].  [Option.map], [Some.map] (on a present Optional) and
    [Ok.map] have no handler: the failure [e] reaches the caller. *)
Theorem transform_failure_containment
  {W : Type} (v : pyval) (e : exn) (s : state W) (w' : W)
  (f : pyfun W pyval pyval) (g : pyfun W pyval ChainedResult.t)
  (Hf : f v (world s) = (Raise e, w'))
  (Hg : g v (world s) = (Raise e, w')) :
  let s' := mkState (S (calls s)) w' in
  (forall errs,
     is_Exception v = false ->
     ChainedResult.map (ChainedResult.mk v errs) f s
     = (Return (ChainedResult.mk (VExc e) (errs ++ [VExc e])%list), s')
     /\ ChainedResult.chain (ChainedResult.mk v errs) g s
        = (Return (ChainedResult.mk (VExc e) (errs ++ [VExc e])%list), s'))
  /\
  (exists m,
     MultiErrorResult.map (MultiErrorResult.mk v []) f s = (Return m, s')
     /\ MultiErrorResult._value m = VList [VExc e])
  /\
  (forall o,
     Optional._value o = v ->
     Optional.is_some o = true ->
     Optional.map o f s = (Raise e, s'))
  /\
  (forall c, Result.Ok_map (Result.mk c v) f s = (Raise e, s')).
Proof.
  intros s'. split; [ | split; [ | split ] ].
  - intros errs Hok. split.
    + unfold ChainedResult.map. simpl. rewrite Hok.
      unfold try_except, bind. rewrite (call_eq _ _ _ _ _ Hf). reflexivity.
    + unfold ChainedResult.chain. simpl. rewrite Hok.
      unfold try_except. rewrite (call_eq _ _ _ _ _ Hg). reflexivity.
  - eexists. split.
    + unfold MultiErrorResult.map. simpl.
      unfold try_except, bind. rewrite (call_eq _ _ _ _ _ Hf). reflexivity.
    + reflexivity.
  - intros o Hv Hsome. unfold Optional.map.
    destruct o as [c x]. simpl in Hv. subst x.
    destruct c; simpl.
    + unfold Optional.Option_map. rewrite Hsome.
      unfold bind. simpl. rewrite (call_eq _ _ _ _ _ Hf). reflexivity.
    + unfold Optional.Some_map, bind. simpl.
      rewrite (call_eq _ _ _ _ _ Hf). reflexivity.
    + discriminate Hsome.
  - intros c. unfold Result.Ok_map, bind. simpl.
    rewrite (call_eq _ _ _ _ _ Hf). reflexivity.
Qed.

Lemma transform_failure_containment_witness :
  let s' := mkState 1 tt in
  (forall errs,
     is_Exception (VInt 1) = false ->
     ChainedResult.map (ChainedResult.mk (VInt 1) errs)
                       (always_raise (ValueError "boom")) (s0 tt)
     = (Return (ChainedResult.mk (VExc (ValueError "boom"))
                                 (errs ++ [VExc (ValueError "boom")])%list), s')
     /\ ChainedResult.chain (ChainedResult.mk (VInt 1) errs)
                            (always_raise (ValueError "boom")) (s0 tt)
        = (Return (ChainedResult.mk (VExc (ValueError "boom"))
                                    (errs ++ [VExc (ValueError "boom")])%list),
           s'))
  /\
  (exists m,
     MultiErrorResult.map (MultiErrorResult.mk (VInt 1) [])
                          (always_raise (ValueError "boom")) (s0 tt)
     = (Return m, s')
     /\ MultiErrorResult._value m = VList [VExc (ValueError "boom")])
  /\
  (forall o,
     Optional._value o = VInt 1 ->
     Optional.is_some o = true ->
     Optional.map o (always_raise (ValueError "boom")) (s0 tt)
     = (Raise (ValueError "boom"), s'))
  /\
  (forall c,
     Result.Ok_map (Result.mk c (VInt 1))
                   (always_raise (ValueError "boom")) (s0 tt)
     = (Raise (ValueError "boom"), s')).
Proof.
  apply (transform_failure_containment
           (VInt 1) (ValueError "boom") (s0 tt) tt
           (always_raise (ValueError "boom"))
           (always_raise (ValueError "boom"))); reflexivity.
Defined.

(** ** MultiErrorResult *)

(** C3, at the input of the claim.  [merge] tests each element with
    [isinstance(result, E)], [E] being a type variable: the test raises
    [TypeError] on the first element, so no MultiErrorResult is returned
    for [[1, e1, 2, e2]]. *)
Theorem merge_mixed_list_raises (e1 e2 : exn) :
  Fnkit.merge [VInt 1; VExc e1; VInt 2; VExc e2]
  = Raise (TypeError isinstance_arg2_msg).
Proof. apply merge_nonempty_raises. Qed.

(** C4. [unwrap] on a MultiErrorResult fails exactly when the error sequence
    is non-empty, whatever the value slot holds, and the failure is the
    [ValueError] whose message carries the accumulated errors; with an empty
    error sequence it returns the value slot.  Either way the object is
    left as it was. *)
Theorem unwrap_fails_iff_errors
  (py_str : pyval -> string) (m : MultiErrorResult.t) :
  (returns (fst (MultiErrorResult.unwrap py_str m)) = false
   <-> MultiErrorResult._errors m <> [])
  /\
  (MultiErrorResult._errors m <> [] ->
   fst (MultiErrorResult.unwrap py_str m)
   = Raise (ValueError ("Result contains errors: "
                          ++ py_str (VList (MultiErrorResult._errors m)))))
  /\
  (MultiErrorResult._errors m = [] ->
   fst (MultiErrorResult.unwrap py_str m)
   = Return (MultiErrorResult._value m))
  /\
  snd (MultiErrorResult.unwrap py_str m) = m.
Proof.
  destruct m as [v errs]. unfold MultiErrorResult.unwrap, MultiErrorResult.has_errors.
  simpl. destruct errs as [ | x errs ]; simpl.
  - repeat split; try discriminate; try congruence.
  - repeat split; try discriminate; try congruence.
Qed.

Lemma unwrap_fails_iff_errors_witness :
  fst (MultiErrorResult.unwrap (fun _ => "[...]")
         (MultiErrorResult.mk (VInt 3) [VExc (ValueError "e1")]))
  = Raise (ValueError "Result contains errors: [...]")
  /\
  fst (MultiErrorResult.unwrap (fun _ => "[...]")
         (MultiErrorResult.mk (VInt 3) []))
  = Return (VInt 3).
Proof.
  split.
  - apply (proj1 (proj2 (unwrap_fails_iff_errors (fun _ => "[...]")
             (MultiErrorResult.mk (VInt 3) [VExc (ValueError "e1")])))).
    discriminate.
  - apply (proj1 (proj2 (proj2 (unwrap_fails_iff_errors (fun _ => "[...]")
             (MultiErrorResult.mk (VInt 3) []))))).
    reflexivity.
Defined.

(** ** AsyncResult *)

(** C6, as the code has it.  When the wrapped computation resolves on the
    first [Await], the resolved value is returned and stored in the value
    slot.  A second [Await] invokes the wrapped computation again: when
    that second run resolves, its value is what is returned and stored
    (two invocations in all). *)
Theorem Await_stores_and_reruns
  {W : Type} (r : AsyncResult.t W) (s : state W)
  (a1 a2 : awaitable W pyval) (v1 v2 : pyval) (w1 w2 w3 w4 : W)
  (Hcall1 : AsyncResult.computation r tt (world s) = (Return a1, w1))
  (Hrun1 : a1 w1 = (Return v1, w2))
  (Hcall2 : AsyncResult.computation r tt w2 = (Return a2, w3))
  (Hrun2 : a2 w3 = (Return v2, w4)) :
  let r1 := AsyncResult.mk (AsyncResult.computation r) v1 (AsyncResult.error r) in
  let s1 := mkState (S (calls s)) w2 in
  let r2 := AsyncResult.mk (AsyncResult.computation r) v2 (AsyncResult.error r) in
  let s2 := mkState (S (S (calls s))) w4 in
  AsyncResult.Await r s = (Return v1, r1, s1)
  /\ AsyncResult.value r1 = v1
  /\ AsyncResult.Await r1 s1 = (Return v2, r2, s2)
  /\ AsyncResult.value r2 = v2.
Proof.
  intros r1 s1 r2 s2.
  assert (H1 : AsyncResult.Await r s = (Return v1, r1, s1)).
  { unfold AsyncResult.Await, bind.
    rewrite (call_eq _ _ _ _ _ Hcall1). unfold await. simpl.
    rewrite Hrun1. reflexivity. }
  assert (H2 : AsyncResult.Await r1 s1 = (Return v2, r2, s2)).
  { unfold AsyncResult.Await, bind. subst r1 s1. simpl.
    rewrite (call_eq (AsyncResult.computation r) tt
               (mkState (S (calls s)) w2) (Return a2) w3 Hcall2).
    unfold await. simpl. rewrite Hrun2. reflexivity. }
  repeat split; assumption.
Qed.

Lemma Await_stores_and_reruns_witness :
  let r := AsyncResult.init tick None in
  let r1 := AsyncResult.mk tick (VInt 1) VNone in
  let r2 := AsyncResult.mk tick (VInt 2) VNone in
  AsyncResult.Await r (s0 0) = (Return (VInt 1), r1, mkState 1 1)
  /\ AsyncResult.value r1 = VInt 1
  /\ AsyncResult.Await r1 (mkState 1 1) = (Return (VInt 2), r2, mkState 2 2)
  /\ AsyncResult.value r2 = VInt 2.
Proof.
  apply (Await_stores_and_reruns
           (AsyncResult.init tick None) (s0 0)
           (fun w' => (Return (VInt (w' + 1)), w' + 1))
           (fun w' => (Return (VInt (w' + 1)), w' + 1))
           (VInt 1) (VInt 2) 0 1 1 2); reflexivity.
Defined.

(** C6 as stated fails: with a computation that counts its runs, the first
    [Await] returns and stores 1, the second one runs the computation again
    and returns 2, not the stored 1. *)
Lemma Await_not_memoized_counterexample :
  ~ (forall (W : Type) (r : AsyncResult.t W) (s : state W)
            (v : pyval) (r1 : AsyncResult.t W) (s1 : state W),
        AsyncResult.Await r s = (Return v, r1, s1) ->
        fst (fst (AsyncResult.Await r1 s1)) = Return v
        /\ calls (snd (AsyncResult.Await r1 s1)) = calls s1).
Proof.
  intros H.
  destruct (H Z (AsyncResult.init tick None) (s0 0)
              (VInt 1) (AsyncResult.mk tick (VInt 1) VNone) (mkState 1 1)
              eq_refl) as [Hv _].
  discriminate Hv.
Qed.

(** ** reduce *)

(** C7, at a three-element input.  [reduce([1, 2, 3], f)] with
    [f = lambda a, b: a - b] calls [f] once, on the first two elements, and
    returns -1; the left fold over all three, which the coroutine of
    [reduce_async] computes on the same input, is (1 - 2) - 3 = -4. *)
Theorem reduce_ignores_third_element :
  Fnkit.reduce [VInt 1; VInt 2; VInt 3] int_sub (s0 tt)
  = (Return (VInt (-1)), mkState 1 tt)
  /\ Fnkit.fold_calls int_sub (VInt 1) [VInt 2; VInt 3] (s0 tt)
     = (Return (VInt (-4)), mkState 2 tt)
  /\ Fnkit.reduce_result
       (List.map Fnkit.ready [VInt 1; VInt 2; VInt 3]) int_sub (s0 tt)
     = (Return (VInt (-4)), mkState 2 tt).
Proof. repeat split. Qed.

(** ** Result *)

(** C8, on the Ok side.  [Ok(v)] cannot be built: [Result.__init__] tests
    the value against a tuple that starts with a type variable, which
    raises [TypeError].  [Ok.map] builds its answer with [Ok(...)], so on
    any Ok object [map(identity)] raises [TypeError] instead of returning
    an equal container. *)
Theorem Ok_map_identity_raises
  {W : Type} (v : pyval) (r : Result.t) (s : state W) :
  Result.Ok_new v = Raise (TypeError isinstance_arg2_msg)
  /\ Result.Ok_map r identity s
     = (Raise (TypeError isinstance_arg2_msg), mkState (S (calls s)) (world s)).
Proof.
  split.
  - apply Result_init_raises.
  - reflexivity.
Qed.

(** The Optional side of the functor law does hold: on a Some object and on
    a present base Option, [map(identity)] returns an equal container. *)
Lemma Optional_map_identity {W : Type} (o : Optional.t) (s : state W) :
  Optional.is_some o = true ->
  exists o',
    Optional.map o identity s = (Return o', mkState (S (calls s)) (world s))
    /\ Optional.eq o' o = true.
Proof.
  destruct o as [c v]. intros Hsome. destruct c.
  - exists (Optional.Option_new v). split.
    + unfold Optional.map, Optional.Option_map. simpl. rewrite Hsome. reflexivity.
    + unfold Optional.eq. simpl. apply py_eq_refl.
  - exists (Optional.Some_new v). split.
    + reflexivity.
    + unfold Optional.eq, Optional.__eq__, Optional.Some___eq__. simpl.
      apply py_eq_refl.
  - discriminate Hsome.
Qed.

Lemma Some_map_identity {W : Type} (v : pyval) (s : state W) :
  exists o',
    Optional.Some_map (Optional.Some_new v) identity s
    = (Return o', mkState (S (calls s)) (world s))
    /\ Optional.eq o' (Optional.Some_new v) = true.
Proof.
  exists (Optional.Some_new v). split.
  - reflexivity.
  - unfold Optional.eq, Optional.__eq__, Optional.Some___eq__. simpl.
    apply py_eq_refl.
Qed.

(** C9. Building a base Result fails with [TypeError] for every value; on
    every base Result and every Choice the variant tests raise [TypeError]
    instead of answering; hence [map], [map_err], [or_else], [get] and
    [unwrap] of the base Result raise [TypeError] on every input, without
    ever reaching the callback, and so do [filter_results] and
    [filter_errors] on every non-empty list. *)
Theorem typevar_tests_always_fail :
  (forall v, raises_TypeError (Result.Result_new v) = true)
  /\
  (forall r : Result.t,
     raises_TypeError (Result.is_ok r) = true
     /\ raises_TypeError (Result.is_err r) = true)
  /\
  (forall c : Choice.t,
     raises_TypeError (Choice.is_some c) = true
     /\ raises_TypeError (Choice.is_err c) = true)
  /\
  (forall (W : Type) (r : Result.t) (f : pyfun W pyval pyval)
          (fb : pyfun W unit pyval) (d : pyval) (s : state W),
     Result.Result_map r f s = (Raise (TypeError isinstance_arg2_msg), s)
     /\ Result.Result_map_err r f s = (Raise (TypeError isinstance_arg2_msg), s)
     /\ Result.or_else r fb s = (Raise (TypeError isinstance_arg2_msg), s)
     /\ Result.get r d = Raise (TypeError isinstance_arg2_msg)
     /\ Result.Result_unwrap r = Raise (TypeError isinstance_arg2_msg))
  /\
  (forall (W : Type) (x : pyval) (xs : list pyval)
          (p : pyfun W pyval bool) (s : state W),
     Fnkit.filter_results (x :: xs) p s
     = (Raise (TypeError isinstance_arg2_msg), s)
     /\ Fnkit.filter_errors (x :: xs) p s
        = (Raise (TypeError isinstance_arg2_msg), s)).
Proof.
  split; [ | split; [ | split; [ | split ] ] ].
  - intros v. reflexivity.
  - intros r. split; reflexivity.
  - intros c. split; reflexivity.
  - intros W r f fb d s. repeat split.
  - intros W x xs p s. split.
    + apply select_m_head_raises. apply isinstance_and_typevar.
    + apply select_m_head_raises. apply isinstance_and_typevar.
Qed.

(** ** Optional *)

(** C10 as stated fails: [NoneType(5)] is an Optional that stores the
    non-null 5 and whose [is_some] answers false. *)
Lemma NoneType_stores_value_counterexample :
  ~ (forall o : Optional.t,
        Optional.is_some o = true <-> is_None (Optional._value o) = false).
Proof.
  intros H.
  destruct (H (Optional.mk Optional.cNoneType (VInt 5))) as [_ Hback].
  specialize (Hback eq_refl). discriminate Hback.
Qed.

(** That object is what the constructor call [NoneType(5)] returns. *)
Lemma NoneType_new_one_argument (v : pyval) :
  Optional.NoneType_new [v] = Return (Optional.mk Optional.cNoneType v).
Proof. reflexivity. Qed.

(** The factory on null: [NoneType()] lacks the argument that the inherited
    initialiser requires, so [option(None)] raises [TypeError]. *)
Lemma option_None_raises :
  raises_TypeError (Optional.option VNone) = true.
Proof. reflexivity. Qed.

(** C10, as the code has it.  On every Option and Some object [is_some]
    holds exactly when the stored value is not None; a NoneType object is
    absent whatever it stores; [is_some] and [is_none] are complements on
    every object, so no object is present with a stored None.  [Option(None)]
    is absent, [map] on a present Optional with a function returning None
    yields an absent Optional, and the factory maps every non-null value to
    a present Some. *)
Theorem optional_null_is_absent :
  (forall o, Optional.cls o <> Optional.cNoneType ->
             Optional.is_some o = negb (is_None (Optional._value o)))
  /\
  (forall o, Optional.cls o = Optional.cNoneType -> Optional.is_some o = false)
  /\
  (forall o, Optional.is_none o = negb (Optional.is_some o))
  /\
  (forall o, Optional.is_some o = true -> is_None (Optional._value o) = false)
  /\
  Optional.is_some (Optional.Option_new VNone) = false
  /\
  (forall (W : Type) (o : Optional.t) (f : pyfun W pyval pyval)
          (s : state W) (w' : W),
     Optional.is_some o = true ->
     f (Optional._value o) (world s) = (Return VNone, w') ->
     exists o',
       Optional.map o f s = (Return o', mkState (S (calls s)) w')
       /\ Optional.is_some o' = false
       /\ Optional.is_none o' = true)
  /\
  (forall v, is_None v = false ->
             Optional.option v = Return (Optional.Some_new v)
             /\ Optional.is_some (Optional.Some_new v) = true).
Proof.
  split; [ | split; [ | split; [ | split; [ | split; [ | split ] ] ] ] ].
  - intros [c v] Hc. destruct c; simpl in *; try reflexivity. congruence.
  - intros [c v] Hc. simpl in Hc. subst c. reflexivity.
  - intros [c v]. destruct c; unfold Optional.is_none, Optional.is_some; simpl;
      try reflexivity;
      unfold Optional.Option_is_none, Optional.Option_is_some; simpl;
      now rewrite Bool.negb_involutive.
  - intros [c v] H. destruct c; simpl in *;
      unfold Optional.is_some, Optional.Option_is_some in H; simpl in H;
      try discriminate; now destruct (is_None v).
  - reflexivity.
  - intros W [c v] f s w' Hsome Hf. simpl in Hf.
    destruct c.
    + exists (Optional.Option_new VNone).
      unfold Optional.map, Optional.Option_map. simpl. rewrite Hsome.
      unfold bind. rewrite (call_eq _ _ _ _ _ Hf). repeat split.
    + exists (Optional.Some_new VNone).
      unfold Optional.map, Optional.Some_map. simpl.
      unfold bind. rewrite (call_eq _ _ _ _ _ Hf). repeat split.
    + discriminate Hsome.
  - intros v Hv. unfold Optional.option. rewrite Hv. simpl.
    split; [ reflexivity | ].
    unfold Optional.is_some, Optional.Option_is_some. simpl. now rewrite Hv.
Qed.

Lemma optional_null_is_absent_witness :
  Optional.is_some (Optional.Some_new (VInt 42)) = negb (is_None (VInt 42))
  /\ Optional.is_some (Optional.mk Optional.cNoneType (VInt 5)) = false
  /\ (exists o',
        Optional.map (Optional.Some_new (VInt 42)) (const_fun VNone) (s0 tt)
        = (Return o', mkState 1 tt)
        /\ Optional.is_some o' = false
        /\ Optional.is_none o' = true)
  /\ (Optional.option (VInt 42) = Return (Optional.Some_new (VInt 42))
      /\ Optional.is_some (Optional.Some_new (VInt 42)) = true).
Proof.
  split; [ | split; [ | split ] ].
  - apply (proj1 optional_null_is_absent (Optional.Some_new (VInt 42))).
    discriminate.
  - apply (proj1 (proj2 optional_null_is_absent)
                 (Optional.mk Optional.cNoneType (VInt 5))).
    reflexivity.
  - apply (proj1 (proj2 (proj2 (proj2 (proj2 (proj2 optional_null_is_absent)))))
                 unit (Optional.Some_new (VInt 42)) (const_fun VNone) (s0 tt) tt);
      reflexivity.
  - apply (proj2 (proj2 (proj2 (proj2 (proj2 (proj2 optional_null_is_absent)))))
                 (VInt 42)).
    reflexivity.
Defined.

(** * Further properties of the code *)

(** ** Values, continued *)



(** ** Optional, continued *)

(** X1. [map] runs the transform exactly once when the object is a Some
    (whatever it stores, None included) or a present Option, and not at all
    otherwise; in that last case the answer is an absent Optional and
    nothing has changed. *)
Theorem Optional_map_invocations
  {W : Type} (o : Optional.t) (f : pyfun W pyval pyval) (s : state W) :
  calls (snd (Optional.map o f s))
  = (if Optional.class_eqb (Optional.cls o) Optional.cSome
        || Optional.is_some o
     then S (calls s) else calls s)
  /\
  (Optional.class_eqb (Optional.cls o) Optional.cSome
   || Optional.is_some o = false ->
   exists o',
     Optional.map o f s = (Return o', s) /\ Optional.is_some o' = false).
Proof.
  destruct o as [c v]. destruct c; simpl.
  - unfold Optional.map, Optional.Option_map. simpl.
    destruct (Optional.is_some (Optional.mk Optional.cOption v)) eqn:Hs.
    + split; [ | discriminate ].
      unfold bind. rewrite call_unfold.
      destruct (fst (f v (world s))); reflexivity.
    + split; [ reflexivity | ]. intros _.
      exists (Optional.Option_new VNone). split; reflexivity.
  - split; [ | discriminate ].
    unfold Optional.map, Optional.Some_map. simpl.
    unfold bind. rewrite call_unfold.
    destruct (fst (f v (world s))); reflexivity.
  - split; [ reflexivity | ]. intros _.
    exists (Optional.mk Optional.cNoneType v). split; reflexivity.
Qed.

Lemma Optional_map_invocations_witness :
  exists o',
    Optional.map (Optional.Option_new VNone)
                 (always_raise (ValueError "never called")) (s0 tt)
    = (Return o', s0 tt)
    /\ Optional.is_some o' = false.
Proof.
  apply (proj2 (Optional_map_invocations
                  (Optional.Option_new VNone)
                  (always_raise (ValueError "never called")) (s0 tt))).
  reflexivity.
Defined.

(** X2. [filter] on an absent Optional does not run the predicate and
    answers [Option(None)].  Whenever [filter] answers a present Optional,
    that answer is the receiver itself and the predicate returned True on
    the stored value. *)
Theorem filter_present_answer_is_receiver
  {W : Type} (o : Optional.t) (p : pyfun W pyval bool) (s : state W) :
  (Optional.is_some o = false ->
   Optional.filter o p s = (Return (Optional.Option_new VNone), s))
  /\
  (forall o' s',
     Optional.filter o p s = (Return o', s') ->
     Optional.is_some o' = true ->
     o' = o
     /\ Optional.is_some o = true
     /\ fst (p (Optional._value o) (world s)) = Return true).
Proof.
  unfold Optional.filter.
  destruct (Optional.is_some o) eqn:Hs.
  - split; [ discriminate | ].
    intros o' s'. unfold bind. rewrite call_unfold.
    destruct (fst (p (Optional._value o) (world s))) as [ b | e ].
    + destruct b; unfold ret; intros Heq Hp; inversion Heq; subst.
      * repeat split.
      * discriminate Hp.
    + discriminate.
  - split; [ reflexivity | ].
    intros o' s' Heq Hp. inversion Heq; subst. discriminate Hp.
Qed.

Lemma filter_present_answer_is_receiver_witness :
  Optional.filter (Optional.Option_new VNone)
                  (always_raise (ValueError "never called")) (s0 tt)
  = (Return (Optional.Option_new VNone), s0 tt)
  /\
  (Optional.Some_new (VInt 84) = Optional.Some_new (VInt 84)
   /\ Optional.is_some (Optional.Some_new (VInt 84)) = true
   /\ fst (const_fun (W := unit) true (VInt 84) tt) = Return true).
Proof.
  split.
  - apply (proj1 (filter_present_answer_is_receiver
                    (Optional.Option_new VNone)
                    (always_raise (ValueError "never called")) (s0 tt))).
    reflexivity.
  - apply (proj2 (filter_present_answer_is_receiver
                    (Optional.Some_new (VInt 84)) (const_fun true) (s0 tt))
                 (Optional.Some_new (VInt 84)) (mkState 1 tt));
      reflexivity.
Defined.

(** X3. [Option.map] is [flat_map] with the transform's result wrapped in
    [Option(...)]: both skip an absent receiver, run the transform once on
    a present one and let its failure through.  [and_then] behaves as
    [flat_map] on every input. *)
Theorem Option_map_is_flat_map_then_wrap
  {W : Type} (o : Optional.t) (f : pyfun W pyval pyval)
  (g : pyfun W pyval Optional.t) (s : state W) :
  Optional.Option_map o f s
  = Optional.flat_map o
      (fun v w =>
         match f v w with
         | (Return x, w') => (Return (Optional.Option_new x), w')
         | (Raise e, w') => (Raise e, w')
         end) s
  /\ Optional.and_then o g s = Optional.flat_map o g s.
Proof.
  split; [ | reflexivity ].
  unfold Optional.Option_map, Optional.flat_map.
  destruct (Optional.is_some o); [ | reflexivity ].
  unfold bind, call.
  destruct (f (Optional._value o) (world s)) as [[x | e] w']; reflexivity.
Qed.


(** X5. The fallbacks of an Optional.  On a present receiver [or_else]
    returns the stored value without running the fallback and [get] returns
    the stored value; on an absent one [or_else] is the fallback call and
    [get] is the default.  [get] with a default that is not None never
    returns None, on any receiver. *)
Theorem Optional_fallbacks
  {W : Type} (o : Optional.t) (fn : pyfun W unit pyval) (d : pyval)
  (s : state W) :
  (Optional.is_some o = true ->
   Optional.or_else o fn s = (Return (Optional._value o), s)
   /\ Optional.get o d = Optional._value o)
  /\
  (Optional.is_some o = false ->
   Optional.or_else o fn s = call fn tt s
   /\ Optional.get o d = d)
  /\
  (is_None d = false -> is_None (Optional.get o d) = false).
Proof.
  unfold Optional.or_else, Optional.get.
  destruct (Optional.is_some o) eqn:Hs.
  - split; [ | split ].
    + intros _. split; reflexivity.
    + discriminate.
    + intros _. destruct o as [c v]. destruct c; simpl in *;
        unfold Optional.is_some, Optional.Option_is_some in Hs; simpl in Hs;
        try discriminate; now destruct (is_None v).
  - split; [ | split ].
    + discriminate.
    + intros _. split; reflexivity.
    + intros Hd. exact Hd.
Qed.

Lemma Optional_fallbacks_witness :
  (Optional.or_else (Optional.Some_new (VInt 42))
                    (always_raise (ValueError "never called")) (s0 tt)
   = (Return (VInt 42), s0 tt)
   /\ Optional.get (Optional.Some_new (VInt 42)) (VInt (-1)) = VInt 42)
  /\
  (Optional.or_else (Optional.Option_new VNone) (const_fun (VInt 7)) (s0 tt)
   = call (const_fun (VInt 7)) tt (s0 tt)
   /\ Optional.get (Optional.Option_new VNone) (VInt (-1)) = VInt (-1))
  /\
  is_None (Optional.get (Optional.Some_new VNone) (VInt (-1))) = false.
Proof.
  split; [ | split ].
  - apply (proj1 (Optional_fallbacks (Optional.Some_new (VInt 42))
                    (always_raise (ValueError "never called"))
                    (VInt (-1)) (s0 tt))).
    reflexivity.
  - apply (proj1 (proj2 (Optional_fallbacks (Optional.Option_new VNone)
                    (const_fun (VInt 7)) (VInt (-1)) (s0 tt)))).
    reflexivity.
  - apply (proj2 (proj2 (Optional_fallbacks (W := unit)
                    (Optional.Some_new VNone)
                    (const_fun VNone) (VInt (-1)) (s0 tt)))).
    reflexivity.
Defined.



(** X7. [unwrap] fails, with [ValueError], exactly on an absent object that
    is not a Some; otherwise it returns the stored value.  A Some is never
    refused: [Some(None).unwrap()] returns None.  In the same way [bool(o)]
    is True exactly when [o] is a Some or is present, so it differs from
    [is_some] on a Some that stores None, and only there. *)
Theorem unwrap_and_bool_trust_Some (o : Optional.t) :
  Optional.unwrap o
  = (if negb (Optional.class_eqb (Optional.cls o) Optional.cSome)
        && Optional.is_none o
     then Raise (ValueError "Cannot unwrap a None value")
     else Return (Optional._value o))
  /\
  Optional.__bool__ o
  = (Optional.class_eqb (Optional.cls o) Optional.cSome || Optional.is_some o)
  /\
  (Optional.__bool__ o <> Optional.is_some o
   <-> Optional.cls o = Optional.cSome /\ Optional._value o = VNone).
Proof.
  destruct o as [c v]. destruct c; simpl.
  - unfold Optional.unwrap, Optional.Option_unwrap. simpl.
    split; [ | split ].
    + destruct (Optional.is_none _); reflexivity.
    + reflexivity.
    + split; [ intros H; now elim H | intros [H _]; discriminate H ].
  - split; [ reflexivity | split; [ reflexivity | ] ].
    unfold Optional.__bool__, Optional.Some___bool__, Optional.is_some,
      Optional.Option_is_some. simpl.
    destruct v; simpl; split; intros H;
      try (split; reflexivity); try (now elim H);
      try (destruct H as [_ H]; discriminate H).
  - split; [ reflexivity | split; [ reflexivity | ] ].
    split; [ intros H; now elim H | intros [H _]; discriminate H ].
Qed.

Lemma unwrap_and_bool_trust_Some_witness :
  Optional.cls (Optional.Some_new VNone) = Optional.cSome
  /\ Optional._value (Optional.Some_new VNone) = VNone.
Proof.
  apply (proj1 (proj2 (proj2 (unwrap_and_bool_trust_Some
                                (Optional.Some_new VNone))))).
  discriminate.
Defined.



(** ** Choice *)

(** X9. Every Choice operation that consults [is_some] or [is_err] raises
    [TypeError] before it does anything else: [unwrap], [get], [map],
    [map_err], [or_else] and [and_then] fail on every Choice and never run
    their callback.  [expect] tests [is_none] first: on a stored None it
    raises [ValueError] with the caller's message, otherwise [TypeError].
    Only [is_none] answers. *)
Theorem Choice_operations_fail
  {W : Type} (c : Choice.t) (f : pyfun W pyval pyval)
  (fb : pyfun W unit pyval) (k : pyfun W pyval Choice.t)
  (d : pyval) (msg : string) (s : state W) :
  Choice.unwrap c = Raise (TypeError isinstance_arg2_msg)
  /\ Choice.get c d = Raise (TypeError isinstance_arg2_msg)
  /\ Choice.map c f s = (Raise (TypeError isinstance_arg2_msg), s)
  /\ Choice.map_err c f s = (Raise (TypeError isinstance_arg2_msg), s)
  /\ Choice.or_else c fb s = (Raise (TypeError isinstance_arg2_msg), s)
  /\ Choice.and_then c k s = (Raise (TypeError isinstance_arg2_msg), s)
  /\ Choice.expect c msg
     = (if is_None (Choice._value c) then Raise (ValueError msg)
        else Raise (TypeError isinstance_arg2_msg))
  /\ Choice.is_none (Choice.Choice_new d) = is_None d.
Proof.
  repeat split.
Qed.

(** ** ChainedResult, continued *)

(** X10. [chain] and [map] never raise, whatever the function does.  [map]
    on an error slot does not run the function and returns an equal
    ChainedResult; in every case the error sequence of what [map] returns
    is the receiver's, or the receiver's followed by the one failure that
    became the current slot: [map] never shortens the history. *)
Theorem ChainedResult_map_keeps_history
  {W : Type} (c : ChainedResult.t) (f : pyfun W pyval pyval)
  (g : pyfun W pyval ChainedResult.t) (s : state W) :
  (exists r s', ChainedResult.chain c g s = (Return r, s'))
  /\
  (exists r s',
     ChainedResult.map c f s = (Return r, s')
     /\ (ChainedResult.errors r = ChainedResult.errors c
         \/ exists e,
              ChainedResult.value r = VExc e
              /\ ChainedResult.errors r
                 = (ChainedResult.errors c ++ [VExc e])%list))
  /\
  (is_Exception (ChainedResult.value c) = true ->
   ChainedResult.map c f s = (Return c, s)).
Proof.
  destruct c as [v errs]. unfold ChainedResult.chain, ChainedResult.map. simpl.
  destruct (is_Exception v) eqn:Hv.
  - split; [ | split ].
    + eexists. eexists. reflexivity.
    + eexists. eexists. split; [ reflexivity | left; reflexivity ].
    + reflexivity.
  - split; [ | split ].
    + unfold try_except. rewrite call_unfold.
      destruct (fst (g v (world s))); eexists; eexists; reflexivity.
    + unfold try_except, bind. rewrite call_unfold.
      destruct (fst (f v (world s))) as [ x | e ].
      * eexists. eexists. split; [ reflexivity | left; reflexivity ].
      * eexists. eexists. split; [ reflexivity | ].
        right. exists e. split; reflexivity.
    + discriminate.
Qed.

Lemma ChainedResult_map_keeps_history_witness :
  ChainedResult.map
    (ChainedResult.mk (VExc (ValueError "bad")) [VExc (ValueError "bad")])
    (always_raise (TypeError "never called")) (s0 tt)
  = (Return (ChainedResult.mk (VExc (ValueError "bad"))
                              [VExc (ValueError "bad")]), s0 tt).
Proof.
  apply (proj2 (proj2 (ChainedResult_map_keeps_history
           (ChainedResult.mk (VExc (ValueError "bad")) [VExc (ValueError "bad")])
           (always_raise (TypeError "never called"))
           (always_raise (TypeError "never called")) (s0 tt)))).
  reflexivity.
Defined.

(** X11. A caught failure is absorbing.  Once [chain] has caught the
    failure of its function, any further [chain] or [map] on the result
    runs nothing and returns it unchanged; the error sequence is one longer
    than at the start, however many steps follow. *)
Theorem caught_failure_is_absorbing
  {W : Type} (c : ChainedResult.t) (f g : pyfun W pyval ChainedResult.t)
  (h : pyfun W pyval pyval) (s : state W) (e : exn) (w' : W)
  (Hok : is_Exception (ChainedResult.value c) = false)
  (Hf : f (ChainedResult.value c) (world s) = (Raise e, w')) :
  exists r s1,
    ChainedResult.chain c f s = (Return r, s1)
    /\ ChainedResult.chain r g s1 = (Return r, s1)
    /\ ChainedResult.map r h s1 = (Return r, s1)
    /\ List.length (ChainedResult.errors r)
       = S (List.length (ChainedResult.errors c)).
Proof.
  exists (ChainedResult.mk (VExc e) (ChainedResult.errors c ++ [VExc e])%list).
  exists (mkState (S (calls s)) w').
  split; [ | split; [ | split ] ].
  - unfold ChainedResult.chain. rewrite Hok.
    unfold try_except. rewrite (call_eq _ _ _ _ _ Hf). reflexivity.
  - reflexivity.
  - reflexivity.
  - simpl. rewrite List.length_app. simpl. lia.
Qed.

Lemma caught_failure_is_absorbing_witness :
  exists r s1,
    ChainedResult.chain (ChainedResult.mk (VInt 1) [])
                        (always_raise (ValueError "first")) (s0 tt)
    = (Return r, s1)
    /\ ChainedResult.chain r (always_raise (ValueError "second")) s1
       = (Return r, s1)
    /\ ChainedResult.map r (always_raise (ValueError "third")) s1
       = (Return r, s1)
    /\ List.length (ChainedResult.errors r) = 1%nat.
Proof.
  apply (caught_failure_is_absorbing
           (ChainedResult.mk (VInt 1) [])
           (always_raise (ValueError "first"))
           (always_raise (ValueError "second"))
           (always_raise (ValueError "third"))
           (s0 tt) (ValueError "first") tt); reflexivity.
Defined.

(** X12. [unwrap] and [expect] return exactly when the current slot is not
    an exception.  After [map] on a success slot: if the function raised,
    [unwrap] fails with the [ValueError] whose message formats the old
    error sequence followed by the new failure, and [expect] with the same
    list behind the caller's message; if it returned a value that is not an
    exception, both return that value. *)
Theorem unwrap_after_map
  {W : Type} (py_str : pyval -> string) (c : ChainedResult.t)
  (f : pyfun W pyval pyval) (s : state W) (msg : string) :
  returns (ChainedResult.unwrap py_str c)
  = negb (is_Exception (ChainedResult.value c))
  /\
  returns (ChainedResult.expect py_str c msg)
  = negb (is_Exception (ChainedResult.value c))
  /\
  (is_Exception (ChainedResult.value c) = false ->
   forall o w', f (ChainedResult.value c) (world s) = (o, w') ->
   exists r s',
     ChainedResult.map c f s = (Return r, s')
     /\ match o with
        | Raise e =>
            let history :=
              py_str (VList (ChainedResult.errors c ++ [VExc e])%list) in
            ChainedResult.unwrap py_str r
            = Raise (ValueError ("Result contains errors: " ++ history))
            /\ ChainedResult.expect py_str r msg
               = Raise (ValueError (msg ++ " | Errors: " ++ history))
        | Return v =>
            is_Exception v = false ->
            ChainedResult.unwrap py_str r = Return v
            /\ ChainedResult.expect py_str r msg = Return v
        end).
Proof.
  split; [ | split ].
  - unfold ChainedResult.unwrap.
    destruct (is_Exception (ChainedResult.value c)); reflexivity.
  - unfold ChainedResult.expect.
    destruct (is_Exception (ChainedResult.value c)); reflexivity.
  - intros Hok o w' Hf. unfold ChainedResult.map. rewrite Hok.
    unfold try_except, bind. rewrite (call_eq _ _ _ _ _ Hf).
    destruct o as [ v | e ].
    + eexists. eexists. split; [ reflexivity | ].
      intros Hv. unfold ChainedResult.unwrap, ChainedResult.expect. simpl.
      rewrite Hv. split; reflexivity.
    + eexists. eexists. split; [ reflexivity | ].
      split; reflexivity.
Qed.

Lemma unwrap_after_map_witness :
  exists r s',
    ChainedResult.map (ChainedResult.mk (VInt 1) [])
                      (always_raise (ValueError "boom")) (s0 tt)
    = (Return r, s')
    /\ (ChainedResult.unwrap (fun _ => "[...]") r
        = Raise (ValueError ("Result contains errors: " ++ "[...]"))
        /\ ChainedResult.expect (fun _ => "[...]") r "ctx"
           = Raise (ValueError ("ctx" ++ " | Errors: " ++ "[...]"))).
Proof.
  apply (proj2 (proj2 (unwrap_after_map (fun _ => "[...]")
                         (ChainedResult.mk (VInt 1) [])
                         (always_raise (ValueError "boom")) (s0 tt) "ctx"))
               eq_refl (Raise (ValueError "boom")) tt eq_refl).
Defined.

(** X13. [map_err] leaves a success untouched and does not run the
    function.  On an error slot it applies the function to the current
    error alone, keeps the error sequence, and has no handler: a failure of
    the function reaches the caller.  When the function returns a value
    that is not an exception the result is a success again, and [unwrap]
    returns that value although the error sequence is still there. *)
Theorem map_err_transforms_current_error
  {W : Type} (py_str : pyval -> string) (c : ChainedResult.t)
  (f : pyfun W pyval pyval) (s : state W) :
  (is_Exception (ChainedResult.value c) = false ->
   ChainedResult.map_err c f s = (Return c, s))
  /\
  (is_Exception (ChainedResult.value c) = true ->
   forall o w', f (ChainedResult.value c) (world s) = (o, w') ->
   match o with
   | Raise e =>
       ChainedResult.map_err c f s = (Raise e, mkState (S (calls s)) w')
   | Return v =>
       ChainedResult.map_err c f s
       = (Return (ChainedResult.mk v (ChainedResult.errors c)),
          mkState (S (calls s)) w')
       /\ (is_Exception v = false ->
           ChainedResult.unwrap py_str
             (ChainedResult.mk v (ChainedResult.errors c)) = Return v)
   end).
Proof.
  unfold ChainedResult.map_err.
  destruct (is_Exception (ChainedResult.value c)) eqn:Hv.
  - split; [ discriminate | ].
    intros _ o w' Hf. unfold bind. rewrite (call_eq _ _ _ _ _ Hf).
    destruct o as [ v | e ]; [ | reflexivity ].
    split; [ reflexivity | ].
    intros Hnv. unfold ChainedResult.unwrap. simpl. rewrite Hnv. reflexivity.
  - split; [ reflexivity | discriminate ].
Qed.

Lemma map_err_transforms_current_error_witness :
  ChainedResult.map_err (ChainedResult.mk (VInt 1) [])
                        (always_raise (ValueError "never called")) (s0 tt)
  = (Return (ChainedResult.mk (VInt 1) []), s0 tt)
  /\
  (ChainedResult.map_err
     (ChainedResult.mk (VExc (ValueError "bad")) [VExc (ValueError "bad")])
     (const_fun (VStr "recovered")) (s0 tt)
   = (Return (ChainedResult.mk (VStr "recovered") [VExc (ValueError "bad")]),
      mkState 1 tt)
   /\ (is_Exception (VStr "recovered") = false ->
       ChainedResult.unwrap (fun _ => "[...]")
         (ChainedResult.mk (VStr "recovered") [VExc (ValueError "bad")])
       = Return (VStr "recovered"))).
Proof.
  split.
  - apply (proj1 (map_err_transforms_current_error (fun _ => "[...]")
                    (ChainedResult.mk (VInt 1) [])
                    (always_raise (ValueError "never called")) (s0 tt))).
    reflexivity.
  - apply (proj2 (map_err_transforms_current_error (fun _ => "[...]")
             (ChainedResult.mk (VExc (ValueError "bad"))
                               [VExc (ValueError "bad")])
             (const_fun (VStr "recovered")) (s0 tt))
           eq_refl (Return (VStr "recovered")) tt eq_refl).
Defined.

(** ** MultiErrorResult, continued *)


(** X15. [MultiErrorResult.map] never raises.  With errors accumulated it
    does not run the function: the value slot of the answer is the list of
    errors and the error sequence is kept.  With none, and a function that
    returns [v], the answer holds [v] and no error. *)
Theorem MultiErrorResult_map_cases
  {W : Type} (m : MultiErrorResult.t) (f : pyfun W pyval pyval)
  (s : state W) :
  (exists r s', MultiErrorResult.map m f s = (Return r, s'))
  /\
  (MultiErrorResult.has_errors m = true ->
   MultiErrorResult.map m f s
   = (Return (MultiErrorResult.mk (VList (MultiErrorResult._errors m))
                                  (MultiErrorResult._errors m)), s))
  /\
  (forall v w',
     MultiErrorResult.has_errors m = false ->
     f (MultiErrorResult._value m) (world s) = (Return v, w') ->
     MultiErrorResult.map m f s
     = (Return (MultiErrorResult.mk v []), mkState (S (calls s)) w')).
Proof.
  unfold MultiErrorResult.map.
  destruct (MultiErrorResult.has_errors m) eqn:Hm.
  - split; [ | split ].
    + eexists. eexists. reflexivity.
    + reflexivity.
    + discriminate.
  - split; [ | split ].
    + unfold try_except, bind. rewrite call_unfold.
      destruct (fst (f (MultiErrorResult._value m) (world s)));
        eexists; eexists; reflexivity.
    + discriminate.
    + intros v w' _ Hf. unfold try_except, bind.
      rewrite (call_eq _ _ _ _ _ Hf). reflexivity.
Qed.

Lemma MultiErrorResult_map_cases_witness :
  MultiErrorResult.map
    (MultiErrorResult.mk (VInt 1) [VStr "e1"; VStr "e2"])
    (always_raise (ValueError "never called")) (s0 tt)
  = (Return (MultiErrorResult.mk (VList [VStr "e1"; VStr "e2"])
                                 [VStr "e1"; VStr "e2"]), s0 tt)
  /\
  MultiErrorResult.map (MultiErrorResult.mk (VInt 1) [])
                       (const_fun (VInt 2)) (s0 tt)
  = (Return (MultiErrorResult.mk (VInt 2) []), mkState 1 tt).
Proof.
  split.
  - apply (proj1 (proj2 (MultiErrorResult_map_cases
                    (MultiErrorResult.mk (VInt 1) [VStr "e1"; VStr "e2"])
                    (always_raise (ValueError "never called")) (s0 tt)))).
    reflexivity.
  - apply (proj2 (proj2 (MultiErrorResult_map_cases
                    (MultiErrorResult.mk (VInt 1) [])
                    (const_fun (VInt 2)) (s0 tt)))
                 (VInt 2) tt); reflexivity.
Defined.

(** X16. [MultiErrorResult.map_err] consumes the errors.  Without errors it
    returns the receiver and does not run the function.  With errors it
    hands the whole list to the function in one call; when the function
    returns [v], the answer has an empty error sequence and [unwrap] on it
    returns [v]. *)
Theorem map_err_consumes_errors
  {W : Type} (py_str : pyval -> string) (m : MultiErrorResult.t)
  (f : pyfun W pyval pyval) (s : state W) :
  (MultiErrorResult.has_errors m = false ->
   MultiErrorResult.map_err m f s = (Return m, s))
  /\
  (forall v w',
     MultiErrorResult.has_errors m = true ->
     f (VList (MultiErrorResult._errors m)) (world s) = (Return v, w') ->
     exists r,
       MultiErrorResult.map_err m f s = (Return r, mkState (S (calls s)) w')
       /\ MultiErrorResult.get_errors r = []
       /\ MultiErrorResult.unwrap py_str r = (Return v, r)).
Proof.
  unfold MultiErrorResult.map_err.
  destruct (MultiErrorResult.has_errors m) eqn:Hm.
  - split; [ discriminate | ].
    intros v w' _ Hf. unfold bind. rewrite (call_eq _ _ _ _ _ Hf).
    eexists. split; [ reflexivity | split; reflexivity ].
  - split; [ reflexivity | discriminate ].
Qed.

Lemma map_err_consumes_errors_witness :
  MultiErrorResult.map_err (MultiErrorResult.mk (VInt 1) [])
                           (always_raise (ValueError "never called")) (s0 tt)
  = (Return (MultiErrorResult.mk (VInt 1) []), s0 tt)
  /\
  exists r,
    MultiErrorResult.map_err
      (MultiErrorResult.mk VNone [VStr "e1"; VStr "e2"])
      (const_fun (VStr "two errors")) (s0 tt)
    = (Return r, mkState 1 tt)
    /\ MultiErrorResult.get_errors r = []
    /\ MultiErrorResult.unwrap (fun _ => "[...]") r
       = (Return (VStr "two errors"), r).
Proof.
  split.
  - apply (proj1 (map_err_consumes_errors (fun _ => "[...]")
                    (MultiErrorResult.mk (VInt 1) [])
                    (always_raise (ValueError "never called")) (s0 tt))).
    reflexivity.
  - apply (proj2 (map_err_consumes_errors (fun _ => "[...]")
                    (MultiErrorResult.mk VNone [VStr "e1"; VStr "e2"])
                    (const_fun (VStr "two errors")) (s0 tt))
                 (VStr "two errors") tt); reflexivity.
Defined.

(** ** AsyncResult, continued *)

(** X17. A failing [Await].  Whether the computation fails when it is
    invoked or when what it returned is awaited, [Await] lets the failure
    through to the caller, records it in the error slot and leaves the
    value slot alone; [unwrap] on the object afterwards fails with
    [ValueError]. *)
Theorem Await_failure_is_recorded
  {W : Type} (py_str : pyval -> string) (r : AsyncResult.t W)
  (s : state W) (e : exn) :
  let r' := AsyncResult.mk (AsyncResult.computation r)
                           (AsyncResult.value r) (VExc e) in
  (forall w1,
     AsyncResult.computation r tt (world s) = (Raise e, w1) ->
     AsyncResult.Await r s = (Raise e, r', mkState (S (calls s)) w1))
  /\
  (forall a w1 w2,
     AsyncResult.computation r tt (world s) = (Return a, w1) ->
     a w1 = (Raise e, w2) ->
     AsyncResult.Await r s = (Raise e, r', mkState (S (calls s)) w2))
  /\
  AsyncResult.unwrap py_str r'
  = Raise (ValueError ("Computation failed with error: " ++ py_str (VExc e))).
Proof.
  intros r'. split; [ | split ].
  - intros w1 Hc. unfold AsyncResult.Await, bind.
    rewrite (call_eq _ _ _ _ _ Hc). reflexivity.
  - intros a w1 w2 Hc Ha. unfold AsyncResult.Await, bind.
    rewrite (call_eq _ _ _ _ _ Hc). unfold await. simpl.
    rewrite Ha. reflexivity.
  - reflexivity.
Qed.

Lemma Await_failure_is_recorded_witness :
  AsyncResult.Await
    (AsyncResult.init (W := unit) (always_raise (ValueError "down")) None)
    (s0 tt)
  = (Raise (ValueError "down"),
     AsyncResult.mk (always_raise (ValueError "down")) VNone
                    (VExc (ValueError "down")),
     mkState 1 tt)
  /\
  AsyncResult.Await
    (AsyncResult.init (W := unit)
       (const_fun (fun w => (Raise (ValueError "late"), w))) None)
    (s0 tt)
  = (Raise (ValueError "late"),
     AsyncResult.mk (const_fun (fun w => (Raise (ValueError "late"), w)))
                    VNone (VExc (ValueError "late")),
     mkState 1 tt).
Proof.
  split.
  - apply (proj1 (Await_failure_is_recorded (fun _ => "")
             (AsyncResult.init (W := unit)
                (always_raise (ValueError "down")) None)
             (s0 tt) (ValueError "down")) tt).
    reflexivity.
  - apply (proj1 (proj2 (Await_failure_is_recorded (fun _ => "")
             (AsyncResult.init (W := unit)
                (const_fun (fun w => (Raise (ValueError "late"), w))) None)
             (s0 tt) (ValueError "late")))
           (fun w => (Raise (ValueError "late"), w)) tt tt); reflexivity.
Defined.

(** X18. [unwrap] looks at the error slot only.  On a fresh AsyncResult
    built without an error it returns None, the initial value slot, and
    runs nothing.  After an [Await] that resolved to [v], it returns [v]
    when the error slot is falsy; an error given at construction that is
    truthy still makes it fail, the successful [Await] notwithstanding. *)
Theorem unwrap_prefers_known_error
  {W : Type} (py_str : pyval -> string) (r : AsyncResult.t W) (s : state W)
  (a : awaitable W pyval) (v : pyval) (w1 w2 : W)
  (Hcall : AsyncResult.computation r tt (world s) = (Return a, w1))
  (Hrun : a w1 = (Return v, w2)) :
  AsyncResult.unwrap py_str
    (AsyncResult.init (AsyncResult.computation r) None) = Return VNone
  /\
  exists r1 s1,
    AsyncResult.Await r s = (Return v, r1, s1)
    /\ AsyncResult.unwrap py_str r1
       = (if truthy (AsyncResult.error r)
          then Raise (ValueError ("Computation failed with error: "
                                    ++ py_str (AsyncResult.error r)))
          else Return v).
Proof.
  split; [ reflexivity | ].
  eexists. eexists. split.
  - unfold AsyncResult.Await, bind.
    rewrite (call_eq _ _ _ _ _ Hcall). unfold await. simpl.
    rewrite Hrun. reflexivity.
  - reflexivity.
Qed.

Lemma unwrap_prefers_known_error_witness :
  AsyncResult.unwrap (fun _ => "E")
    (AsyncResult.init (AsyncResult.computation
                         (AsyncResult.init tick (Some (VStr "known")))) None)
  = Return VNone
  /\
  exists r1 s1,
    AsyncResult.Await (AsyncResult.init tick (Some (VStr "known"))) (s0 0)
    = (Return (VInt 1), r1, s1)
    /\ AsyncResult.unwrap (fun _ => "E") r1
       = (if truthy (AsyncResult.error
                       (AsyncResult.init tick (Some (VStr "known"))))
          then Raise (ValueError ("Computation failed with error: "
                                    ++ "E"))
          else Return (VInt 1)).
Proof.
  apply (unwrap_prefers_known_error (fun _ => "E")
           (AsyncResult.init tick (Some (VStr "known"))) (s0 0)
           (fun w' => (Return (VInt (w' + 1)), w' + 1))
           (VInt 1) 0 1); reflexivity.
Defined.

(** ** [or_else] and [unwrap] *)

(** X19. On a ChainedResult, a MultiErrorResult and an AsyncResult alike,
    [or_else] runs its fallback exactly when [unwrap] on the same object
    would fail; otherwise it returns the object and runs nothing. *)
Theorem or_else_runs_iff_unwrap_fails
  {W : Type} (py_str : pyval -> string) (s : state W)
  (c : ChainedResult.t) (fc : pyfun W unit ChainedResult.t)
  (m : MultiErrorResult.t) (fm : pyfun W unit MultiErrorResult.t)
  (r : AsyncResult.t W) (fr : pyfun W unit (AsyncResult.t W)) :
  ChainedResult.or_else c fc s
  = (if returns (ChainedResult.unwrap py_str c)
     then (Return c, s) else call fc tt s)
  /\
  MultiErrorResult.or_else m fm s
  = (if returns (fst (MultiErrorResult.unwrap py_str m))
     then (Return m, s) else call fm tt s)
  /\
  AsyncResult.or_else r fr s
  = (if returns (AsyncResult.unwrap py_str r)
     then (Return r, s) else call fr tt s).
Proof.
  split; [ | split ].
  - unfold ChainedResult.or_else, ChainedResult.unwrap.
    destruct (is_Exception (ChainedResult.value c)); reflexivity.
  - unfold MultiErrorResult.or_else, MultiErrorResult.unwrap.
    destruct (MultiErrorResult.has_errors m); reflexivity.
  - unfold AsyncResult.or_else, AsyncResult.unwrap.
    destruct (truthy (AsyncResult.error r)); reflexivity.
Qed.

(** ** The free functions, continued *)

(** X20. The free functions that branch on [isinstance(result, E)] or
    [isinstance(result, T)] raise [TypeError] on every input, before any
    callback runs and before any container is built: [chain], [map_value],
    [map_error], [or_else], [handle_error], [from_result], [from_error] and
    [to_result]. *)
Theorem typevar_dispatch_always_fails
  {W : Type} (result : pyval) (s : state W)
  (fc : pyfun W pyval ChainedResult.t) (f : pyfun W pyval pyval)
  (fb : pyfun W unit ChainedResult.t) :
  Fnkit.chain result fc s = (Raise (TypeError isinstance_arg2_msg), s)
  /\ Fnkit.map_value result f s = (Raise (TypeError isinstance_arg2_msg), s)
  /\ Fnkit.map_error result f s = (Raise (TypeError isinstance_arg2_msg), s)
  /\ Fnkit.or_else result fb s = (Raise (TypeError isinstance_arg2_msg), s)
  /\ Fnkit.handle_error result f s
     = (Raise (TypeError isinstance_arg2_msg), s)
  /\ Fnkit.from_result result = Raise (TypeError isinstance_arg2_msg)
  /\ Fnkit.from_error result = Raise (TypeError isinstance_arg2_msg)
  /\ Fnkit.to_result result = Raise (TypeError isinstance_arg2_msg).
Proof. repeat split. Qed.

(** X21. The free function [add_error] never fills the error sequence.
    What it returns holds, in the value slot, a list that ends with the new
    error (the given list with the error appended, or the one-element list
    when the first argument is not a list); its error sequence is empty, so
    [unwrap] on it returns that list. *)
Theorem free_add_error_fills_value_slot
  (py_str : pyval -> string) (result error : pyval) :
  exists items,
    MultiErrorResult._value (Fnkit.add_error result error) = VList items
    /\ List.last items VNone = error
    /\ items = (match result with
                | VList old => old ++ [error]
                | _ => [error]
                end)%list
    /\ MultiErrorResult.get_errors (Fnkit.add_error result error) = []
    /\ fst (MultiErrorResult.unwrap py_str (Fnkit.add_error result error))
       = Return (VList items).
Proof.
  destruct result as [ | b | n | str | e | old ];
    try solve [ exists [error]; repeat split ].
  exists (old ++ [error])%list. repeat split.
  apply List.last_last.
Qed.

(** X22. The edges of [reduce] and [reduce_error].  On the empty list both
    raise [IndexError]; on a one-element list both return the element; in
    neither case is the function run.  On two or more elements both are one
    call of the function on the first two elements, whatever follows. *)
Theorem reduce_edges
  {W : Type} (func : pyfun2 W pyval pyval pyval) (x a b : pyval)
  (rest : list pyval) (s : state W) :
  Fnkit.reduce [] func s = (Raise (IndexError "list index out of range"), s)
  /\ Fnkit.reduce_error [] func s
     = (Raise (IndexError "list index out of range"), s)
  /\ Fnkit.reduce [x] func s = (Return x, s)
  /\ Fnkit.reduce_error [x] func s = (Return x, s)
  /\ Fnkit.reduce (a :: b :: rest) func s = call2 func a b s
  /\ Fnkit.reduce_error (a :: b :: rest) func s = call2 func a b s.
Proof. repeat split. Qed.

(** X23. The coroutine of [reduce_async] is a left fold.  Over awaitables
    that resolve to [x :: l] and with a function that computes [op], it
    returns [fold_left op l x] after one call of the function per element
    of [l]; on the empty list it raises [IndexError] and runs nothing. *)
Theorem reduce_result_left_fold
  {W : Type} (op : pyval -> pyval -> pyval) (x : pyval) (l : list pyval)
  (func : pyfun2 W pyval pyval pyval) (s : state W) :
  Fnkit.reduce_result (List.map Fnkit.ready (x :: l))
                      (fun a b w => (Return (op a b), w)) s
  = (Return (List.fold_left op l x),
     mkState (List.length l + calls s) (world s))
  /\
  Fnkit.reduce_result [] func s
  = (Raise (IndexError "list index out of range"), s).
Proof.
  split; [ | reflexivity ].
  rewrite reduce_result_folds.
  revert x s. induction l as [ | y l IH ]; intros x s.
  - simpl. unfold ret. rewrite state_eta. reflexivity.
  - simpl. unfold bind, call2. simpl. rewrite IH. simpl.
    rewrite Nat.add_succ_r. reflexivity.
Qed.

(** X24. The coroutine of [sequence] awaits from left to right.  Awaiting
    [l1 ++ l2] is awaiting [l1], then [l2], and concatenating the values in
    that order; if the first awaitable fails the failure is the outcome and
    the rest is never awaited; awaitables already resolved give back their
    values in input order. *)
Theorem sequence_result_in_order
  {W : Type} (l1 l2 : list (awaitable W pyval)) (s : state W) :
  Fnkit.sequence_result (l1 ++ l2)%list s
  = (vs1 <- Fnkit.sequence_result l1 ;;
     vs2 <- Fnkit.sequence_result l2 ;;
     ret (vs1 ++ vs2)%list) s
  /\
  (forall a e w',
     a (world s) = (Raise e, w') ->
     Fnkit.sequence_result (a :: l2) s = (Raise e, mkState (calls s) w'))
  /\
  (forall vs,
     Fnkit.sequence_result (List.map Fnkit.ready vs) s = (Return vs, s)).
Proof.
  split; [ | split ].
  - revert s. induction l1 as [ | a l1 IH ]; intros s.
    + simpl. unfold bind, ret.
      destruct (Fnkit.sequence_result l2 s) as [[vs | e] s']; reflexivity.
    + simpl. unfold bind at 1. unfold bind at 2. unfold bind at 2.
      destruct (await a s) as [[v | e] s1]; [ | reflexivity ].
      unfold bind at 1. rewrite IH.
      unfold bind, ret.
      destruct (Fnkit.sequence_result l1 s1) as [[vs1 | e] s2];
        [ | reflexivity ].
      destruct (Fnkit.sequence_result l2 s2) as [[vs2 | e] s3]; reflexivity.
  - intros a e w' Ha. simpl. unfold bind, await. rewrite Ha. reflexivity.
  - intros vs. revert s. induction vs as [ | v vs IH ]; intros s.
    + reflexivity.
    + simpl. unfold bind at 1. unfold await, Fnkit.ready at 1. simpl.
      rewrite state_eta. unfold bind. rewrite IH. reflexivity.
Qed.

Lemma sequence_result_in_order_witness :
  Fnkit.sequence_result
    [ (fun w : Z => (Raise (ValueError "down"), w + 1));
      (fun w : Z => (Return (VInt w), w + 10)) ] (s0 0)
  = (Raise (ValueError "down"), mkState 0 1).
Proof.
  apply (proj1 (proj2 (sequence_result_in_order
            (W := Z) []
            [ (fun w : Z => (Return (VInt w), w + 10)) ] (s0 0)))
          (fun w : Z => (Raise (ValueError "down"), w + 1))
          (ValueError "down") 1).
  reflexivity.
Defined.

(** ** examples.py *)

(** X25. The [or_else] of the example script runs its fallback, on the
    result itself, exactly when the value slot is None and the error
    sequence is not empty; otherwise it returns the result and runs
    nothing. *)
Theorem examples_or_else_trigger
  {W : Type} (result : ChainedResult.t)
  (fallback : pyfun W ChainedResult.t ChainedResult.t) (s : state W) :
  (ChainedResult.value result = VNone ->
   ChainedResult.errors result <> [] ->
   Examples.or_else result fallback s = call fallback result s)
  /\
  (ChainedResult.value result <> VNone \/ ChainedResult.errors result = [] ->
   Examples.or_else result fallback s = (Return result, s)).
Proof.
  destruct result as [v errs]. unfold Examples.or_else. simpl. split.
  - intros -> Hne. destruct errs; [ now elim Hne | reflexivity ].
  - intros [Hv | He].
    + destruct v; try reflexivity. now elim Hv.
    + subst errs. simpl. rewrite Bool.andb_false_r. reflexivity.
Qed.

Lemma examples_or_else_trigger_witness :
  Examples.or_else (ChainedResult.mk VNone [VStr "e"])
                   (const_fun (ChainedResult.mk (VStr "Fallback") []))
                   (s0 tt)
  = call (const_fun (ChainedResult.mk (VStr "Fallback") []))
         (ChainedResult.mk VNone [VStr "e"]) (s0 tt)
  /\
  Examples.or_else (ChainedResult.mk (VInt 84) [])
                   (always_raise (TypeError "never called")) (s0 tt)
  = (Return (ChainedResult.mk (VInt 84) []), s0 tt).
Proof.
  split.
  - apply (proj1 (examples_or_else_trigger
                    (ChainedResult.mk VNone [VStr "e"])
                    (const_fun (ChainedResult.mk (VStr "Fallback") []))
                    (s0 tt))).
    + reflexivity.
    + discriminate.
  - apply (proj2 (examples_or_else_trigger
                    (ChainedResult.mk (VInt 84) [])
                    (always_raise (TypeError "never called")) (s0 tt))).
    left. discriminate.
Defined.

(** X26. The [map_value] of the example script, unlike [ChainedResult.map],
    starts a new history and has no handler.  On a None value slot it
    returns the result and runs nothing; otherwise a returned [v] comes
    back in a ChainedResult with an empty error sequence, whatever the
    errors before, and a failure of the function reaches the caller. *)
Theorem examples_map_value_drops_history
  {W : Type} (result : ChainedResult.t) (func : pyfun W pyval pyval)
  (s : state W) :
  (ChainedResult.value result = VNone ->
   Examples.map_value result func s = (Return result, s))
  /\
  (ChainedResult.value result <> VNone ->
   forall o w', func (ChainedResult.value result) (world s) = (o, w') ->
   Examples.map_value result func s
   = (match o with
      | Return v => Return (ChainedResult.mk v [])
      | Raise e => Raise e
      end, mkState (S (calls s)) w')).
Proof.
  unfold Examples.map_value. split.
  - intros ->. reflexivity.
  - intros Hv o w' Hf.
    destruct (ChainedResult.value result) eqn:Hval; try (now elim Hv); simpl;
      unfold bind; rewrite (call_eq _ _ _ _ _ Hf); destruct o; reflexivity.
Qed.

Lemma examples_map_value_drops_history_witness :
  Examples.map_value (ChainedResult.mk VNone [VStr "e"])
                     (always_raise (TypeError "never called")) (s0 tt)
  = (Return (ChainedResult.mk VNone [VStr "e"]), s0 tt)
  /\
  Examples.map_value (ChainedResult.mk (VInt 42) [VStr "old"])
                     (const_fun (VInt 84)) (s0 tt)
  = (Return (ChainedResult.mk (VInt 84) []), mkState 1 tt).
Proof.
  split.
  - apply (proj1 (examples_map_value_drops_history
                    (ChainedResult.mk VNone [VStr "e"])
                    (always_raise (TypeError "never called")) (s0 tt))).
    reflexivity.
  - apply (proj2 (examples_map_value_drops_history
                    (ChainedResult.mk (VInt 42) [VStr "old"])
                    (const_fun (VInt 84)) (s0 tt))
                 ltac:(discriminate) (Return (VInt 84)) tt eq_refl).
Defined.
